(** * img_conv: a directory-level image format converter

    A shallow embedding of [src/img_conv.py].  The program is a thin
    orchestration layer over the operating system ([os], [os.path]) and
    the imaging library (PIL): every observable action is a call to one
    of them.  The embedding therefore has three layers:

    - the pure string functions the code uses ([str.lower], and
      [basename], [splitext], [join] of [posixpath]);
    - the three Python functions [convert_image], [process_directory]
      and [main], written as programs over the calls they issue, with
      Python's exceptions and [try]/[except] made explicit;
    - a semantics that runs a program against any world that answers
      the calls, and one concrete world (a small file system with an
      idealised codec) on which the programs can be evaluated. *)

From Stdlib Require Import ZArith String Ascii List Bool Lia.
From Stdlib Require Import DecimalString DecimalPos DecimalZ.
From stdpp Require Import base option list strings gmap fin_maps.

Local Open Scope string_scope.
Local Open Scope Z_scope.

(** ** Python strings

    A Python [str] is modelled by a Rocq [string]; the model covers
    ASCII text, which is all the program's own literals use. *)

Module Str.

(** [str.lower] on one character: the letters [A]..[Z] move to
    [a]..[z], everything else is left alone. *)
Definition lower_char (c : ascii) : ascii :=
  let n := nat_of_ascii c in
  if ((65 <=? n)%nat && (n <=? 90)%nat)%bool then ascii_of_nat (n + 32) else c.

Fixpoint lower (s : string) : string :=
  match s with
  | EmptyString => EmptyString
  | String c s' => String (lower_char c) (lower s')
  end.

(** [s.rfind(c)] for a one-character needle: the highest index at
    which [c] occurs in [s], or [-1].  [rfind_from c s i] is the same
    for a string whose first character has index [i]. *)
Fixpoint rfind_from (c : ascii) (s : string) (i : Z) : Z :=
  match s with
  | EmptyString => -1
  | String a s' =>
      let r := rfind_from c s' (i + 1) in
      if 0 <=? r then r else if Ascii.eqb a c then i else -1
  end.

Definition rfind (c : ascii) (s : string) : Z := rfind_from c s 0.

(** The slices [s[:n]] and [s[n:]] for [n >= 0]. *)
Fixpoint take (n : nat) (s : string) : string :=
  match n, s with
  | O, _ => EmptyString
  | S n', EmptyString => EmptyString
  | S n', String c s' => String c (take n' s')
  end.

Fixpoint drop (n : nat) (s : string) : string :=
  match n, s with
  | O, _ => s
  | S n', EmptyString => EmptyString
  | S n', String c s' => drop n' s'
  end.

Definition slice_to (i : Z) (s : string) : string := take (Z.to_nat i) s.
Definition slice_from (i : Z) (s : string) : string := drop (Z.to_nat i) s.

(** [s.startswith(c)] and [s.endswith(c)] for a one-character [c]. *)
Definition startswith (c : ascii) (s : string) : bool :=
  match s with
  | String a _ => Ascii.eqb a c
  | EmptyString => false
  end.

Fixpoint endswith (c : ascii) (s : string) : bool :=
  match s with
  | EmptyString => false
  | String a EmptyString => Ascii.eqb a c
  | String _ s' => endswith c s'
  end.

(** [s.startswith(prefix)]. *)
Fixpoint has_prefix (prefix s : string) : bool :=
  match prefix, s with
  | EmptyString, _ => true
  | String _ _, EmptyString => false
  | String a prefix', String b s' => Ascii.eqb a b && has_prefix prefix' s'
  end.

(** [c in s]. *)
Fixpoint contains (c : ascii) (s : string) : bool :=
  match s with
  | EmptyString => false
  | String a s' => Ascii.eqb a c || contains c s'
  end.

(** [s[i:i+1] != c], the test of [splitext]'s loop over leading dots. *)
Definition char_at_differs (s : string) (i : Z) (c : ascii) : bool :=
  match String.get (Z.to_nat i) s with
  | Some a => negb (Ascii.eqb a c)
  | None => true
  end.

End Str.

(** ** [posixpath]

    [os.path] on a POSIX system: [sep = "/"], [extsep = "."], no
    [altsep]. *)

Module posixpath.

Definition sep : ascii := "/"%char.
Definition extsep : ascii := "."%char.

(** [basename(p)]: [i = p.rfind(sep) + 1; return p[i:]]. *)
Definition basename (p : string) : string :=
  let i := Str.rfind sep p + 1 in
  Str.slice_from i p.

(** The loop of [genericpath._splitext] that skips leading dots:
    [filenameIndex] runs from [sepIndex + 1] up to [dotIndex]; the
    first character that is not a dot makes the split at [dotIndex]
    valid.  [n] counts the iterations left. *)
Fixpoint splitext_scan (p : string) (dotIndex filenameIndex : Z) (n : nat)
  : option (string * string) :=
  match n with
  | O => None
  | S n' =>
      if Str.char_at_differs p filenameIndex extsep
      then Some (Str.slice_to dotIndex p, Str.slice_from dotIndex p)
      else splitext_scan p dotIndex (filenameIndex + 1) n'
  end.

(** [splitext(p)]: split at the last dot of the last path component,
    unless that component consists of leading dots up to there. *)
Definition splitext (p : string) : string * string :=
  let sepIndex := Str.rfind sep p in
  let dotIndex := Str.rfind extsep p in
  if sepIndex <? dotIndex then
    let filenameIndex := sepIndex + 1 in
    match splitext_scan p dotIndex filenameIndex (Z.to_nat (dotIndex - filenameIndex)) with
    | Some r => r
    | None => (p, EmptyString)
    end
  else (p, EmptyString).

(** [join(a, b)] with one further component: an absolute [b] discards
    [a]; otherwise [b] is appended, after a separator unless [a] is
    empty or already ends with one. *)
Definition join (a b : string) : string :=
  if Str.startswith sep b then b
  else if (String.eqb a "" || Str.endswith sep a)%bool then a ++ b
  else a ++ String sep b.

End posixpath.

(** ** Exceptions, calls and programs *)

(** The exceptions the program tells apart: [except FileNotFoundError]
    is tried first, [except Exception] takes every other one.  The
    string is what [str(e)] gives.  Exceptions that are not an
    [Exception] (an interrupt, an exit request) are not modelled. *)
Inductive exn : Type :=
| FileNotFoundError (msg : string)
| OtherException (msg : string).

Definition str_exn (e : exn) : string :=
  match e with
  | FileNotFoundError msg => msg
  | OtherException msg => msg
  end.

Section Program.

(** The decoded-image objects of the imaging library are opaque to the
    program: it only passes them on. *)
Context {image : Type}.

(** Every call the program makes to the outside. *)
Inductive call : Type :=
| os_path_exists (path : string)
| os_path_isfile (path : string)
| os_path_isdir (path : string)
| os_makedirs (name : string)
| os_listdir (path : string)
| Image_open (fp : string)
| Image_convert (img : image) (mode : string)
| Image_save (img : image) (fp : string) (format : option string) (quality : option Z)
| print (line : string).

(** What a call gives back.  The [os.path] predicates and [print]
    always return; the others return or raise. *)
Definition result (c : call) : Type :=
  match c with
  | os_path_exists _ | os_path_isfile _ | os_path_isdir _ => bool
  | os_makedirs _ => (exn + unit)%type
  | os_listdir _ => (exn + list string)%type
  | Image_open _ => (exn + image)%type
  | Image_convert _ _ => (exn + image)%type
  | Image_save _ _ _ _ => (exn + unit)%type
  | print _ => unit
  end.

(** A program is a tree: it returns, or makes a call and goes on with
    the answer. *)
Inductive prog (R : Type) : Type :=
| Ret (r : R)
| Do (c : call) (k : result c -> prog R).

Arguments Ret {R} r.
Arguments Do {R} c k.

Fixpoint prog_bind {A B : Type} (m : prog A) (f : A -> prog B) : prog B :=
  match m with
  | Ret a => f a
  | Do c k => Do c (fun x => prog_bind (k x) f)
  end.

(** A Python computation returns a value or raises. *)
Definition py (R : Type) : Type := prog (exn + R).

Definition ret {R : Type} (r : R) : py R := Ret (inr r).

Definition bind {A B : Type} (m : py A) (f : A -> py B) : py B :=
  prog_bind m (fun r => match r with
                        | inl e => Ret (inl e)
                        | inr a => f a
                        end).

(** [try: body except ...: handler]. *)
Definition try_except {R : Type} (body : py R) (handler : exn -> py R) : py R :=
  prog_bind body (fun r => match r with
                           | inl e => handler e
                           | inr a => Ret (inr a)
                           end).

(** [for x in l: body]. *)
Fixpoint for_each {A : Type} (l : list A) (body : A -> py unit) : py unit :=
  match l with
  | [] => ret tt
  | x :: l' => bind (body x) (fun _ => for_each l' body)
  end.

End Program.

Arguments call : clear implicits.
Arguments prog : clear implicits.
Arguments py : clear implicits.
Arguments Ret {image R} r.
Arguments Do {image R} c k.

Declare Scope py_scope.
Delimit Scope py_scope with py.
Notation "'let!' x ':=' m 'in' k" := (bind m (fun x => k))
  (at level 10, x name, m at level 100, k at level 200) : py_scope.
Notation "'do!' m 'in' k" := (bind m (fun _ => k))
  (at level 10, m at level 100, k at level 200) : py_scope.

Section Calls.

Context {image : Type}.

(** The calls as Python computations. *)
Definition exists_ (path : string) : py image bool :=
  Do (os_path_exists path) ret.
Definition isfile (path : string) : py image bool :=
  Do (os_path_isfile path) ret.
Definition isdir (path : string) : py image bool :=
  Do (os_path_isdir path) ret.
Definition makedirs (name : string) : py image unit :=
  Do (os_makedirs name) Ret.
Definition listdir (path : string) : py image (list string) :=
  Do (os_listdir path) Ret.
Definition open (fp : string) : py image image :=
  Do (Image_open fp) Ret.
Definition convert (img : image) (mode : string) : py image image :=
  Do (Image_convert img mode) Ret.
Definition save (img : image) (fp : string) (format : option string)
    (quality : option Z) : py image unit :=
  Do (Image_save img fp format quality) Ret.
Definition say (line : string) : py image unit :=
  Do (print line) ret.

End Calls.

(** ** The program: [src/img_conv.py] *)

(** [x in l] for a list of strings. *)
Definition str_in (x : string) (l : list string) : bool :=
  existsb (String.eqb x) l.

(** Lines 17 and 18 of [convert_image]. *)
Definition output_filename (input_path output_format : string) : string :=
  fst (posixpath.splitext (posixpath.basename input_path))
  ++ "." ++ Str.lower output_format.

Definition final_output_path (input_path output_path output_format : string) : string :=
  posixpath.join output_path (output_filename input_path output_format).

(** The status lines. *)
Definition msg_unsupported (output_format : string) : string :=
  "Unsupported output format: " ++ output_format.
Definition msg_converted (input_path final_output_path : string) : string :=
  "Converted '" ++ input_path ++ "' to '" ++ final_output_path ++ "'".
Definition msg_not_found (input_path : string) : string :=
  "Error: Input file '" ++ input_path ++ "' not found.".
Definition msg_error (input_path : string) (e : exn) : string :=
  "An error occurred while processing '" ++ input_path ++ "': " ++ str_exn e.
Definition msg_created (output_dir : string) : string :=
  "Created output directory: " ++ output_dir.
Definition msg_skipping (input_path : string) : string :=
  "Skipping non-image file or unsupported format: '" ++ input_path ++ "'".
Definition msg_no_input_dir (input_directory : string) : string :=
  "Error: Input directory '" ++ input_directory ++ "' does not exist.".
Definition msg_completed : string := "Image conversion process completed.".

(** What [argparse] hands to [main]. *)
Record Namespace : Type := {
  input_dir : string;
  output_dir : string;
  output_format : string;
  quality : Z
}.

Section Source.

Context {image : Type}.
Local Open Scope py_scope.

(** The body of the [try] of [convert_image].  The [else] branch
    returns from the function, so the final [print] is skipped there:
    [returned] records which way the branches left. *)
Definition convert_image_try (input_path output_path output_format : string)
    (quality : Z) : py image unit :=
  let! img := open input_path in
  let final_output_path := final_output_path input_path output_path output_format in
  let! returned :=
    (if String.eqb (Str.lower output_format) "webp" then
       let! img := convert img "RGB" in
       do! save img final_output_path (Some "webp") (Some quality) in
       ret false
     else if str_in (Str.lower output_format) ["png"; "jpeg"; "jpg"] then
       do! save img final_output_path None None in
       ret false
     else
       do! say (msg_unsupported output_format) in
       ret true) in
  if (returned : bool) then ret tt
  else say (msg_converted input_path final_output_path).

Definition convert_image (input_path output_path output_format : string)
    (quality : Z) : py image unit :=
  try_except
    (convert_image_try input_path output_path output_format quality)
    (fun e => match e with
              | FileNotFoundError _ => say (msg_not_found input_path)
              | OtherException _ => say (msg_error input_path e)
              end).

(** The body of the [for] loop of [process_directory]. *)
Definition process_entry (input_dir output_dir output_format : string)
    (quality : Z) (filename : string) : py image unit :=
  let input_path := posixpath.join input_dir filename in
  let! is_file := isfile input_path in
  if (is_file : bool) then
    try_except
      (do! open input_path in
       convert_image input_path output_dir output_format quality)
      (fun _ => say (msg_skipping input_path))
  else ret tt.

Definition process_directory (input_dir output_dir output_format : string)
    (quality : Z) : py image unit :=
  let! there := exists_ output_dir in
  do! (if negb there then
         do! makedirs output_dir in
         say (msg_created output_dir)
       else ret tt) in
  let! names := listdir input_dir in
  for_each names (process_entry input_dir output_dir output_format quality).

(** [main] after [parser.parse_args()]. *)
Definition main (args : Namespace) : py image unit :=
  let input_directory := input_dir args in
  let output_directory := output_dir args in
  let output_format := Str.lower (output_format args) in
  let quality := quality args in
  let! is_dir := isdir input_directory in
  if negb is_dir then
    say (msg_no_input_dir input_directory)
  else
    do! process_directory input_directory output_directory output_format quality in
    say msg_completed.

End Source.

(** ** Running a program *)

(** A world answers every call from its current state. *)
Record World (image : Type) : Type := {
  state : Type;
  answer : forall c : call image, state -> result c * state
}.

Arguments state {image} _.
Arguments answer {image} _ c _.

Section Run.

Context {image : Type} (W : World image).

(** [run p s]: the value [p] ends with, the final state, and the calls
    issued, in order. *)
Fixpoint run {R : Type} (p : prog image R) (s : state W)
  : R * state W * list (call image) :=
  match p with
  | Ret r => (r, s, [])
  | Do c k =>
      let '(x, s1) := answer W c s in
      let '(r, s2, t) := run (k x) s1 in
      (r, s2, c :: t)
  end.

Definition value {R : Type} (p : prog image R) (s : state W) : R := fst (fst (run p s)).
Definition final {R : Type} (p : prog image R) (s : state W) : state W := snd (fst (run p s)).
Definition trace {R : Type} (p : prog image R) (s : state W) : list (call image) := snd (run p s).

End Run.

(** What the program printed. *)
Fixpoint stdout {image : Type} (t : list (call image)) : list string :=
  match t with
  | [] => []
  | print line :: t' => line :: stdout t'
  | _ :: t' => stdout t'
  end.

(** The exit status of the interpreter after [main()]: [0] when it
    returned, [1] when an exception escaped. *)
Definition exit_status (r : exn + unit) : Z :=
  match r with
  | inr _ => 0
  | inl _ => 1
  end.

(** ** A concrete world: a small file system and an idealised codec

    The programs above are proved against every world.  This one makes
    them executable.  It is a model of the collaborators, not of the
    program: a tree of directories and files addressed by path
    components, and a codec that stores a decoded picture with the
    format and quality it was encoded with. *)

Module Disk.

(** A decoded picture: its pixel mode and a token for its content. *)
Record picture : Type := { mode : string; pixels : N }.

Inductive content : Type :=
| Bytes (data : string)
| Encoded (format : string) (quality : option Z) (img : picture).

Inductive node : Type :=
| Dir
| File (c : content).

(** The tree, keyed by the components of the path from the root; the
    root itself is always a directory.  Relative paths are taken from
    the root. *)
Abbreviation fs := (gmap (list string) node).

Fixpoint split (s : string) : list string :=
  match s with
  | EmptyString => [EmptyString]
  | String c s' =>
      if Ascii.eqb c posixpath.sep then EmptyString :: split s'
      else match split s' with
           | h :: t => String c h :: t
           | [] => [String c EmptyString]
           end
  end.

(** Empty components and [.] do not count; [..] is not interpreted. *)
Definition components (path : string) : list string :=
  List.filter (fun x => negb (String.eqb x "" || String.eqb x ".")) (split path).

(** The empty path names nothing. *)
Definition lookup_path (d : fs) (path : string) : option node :=
  if String.eqb path "" then None
  else match components path with
       | [] => Some Dir
       | cs => d !! cs
       end.

Definition path_exists (d : fs) (path : string) : bool :=
  match lookup_path d path with Some _ => true | None => false end.
Definition path_isfile (d : fs) (path : string) : bool :=
  match lookup_path d path with Some (File _) => true | _ => false end.
Definition path_isdir (d : fs) (path : string) : bool :=
  match lookup_path d path with Some Dir => true | _ => false end.

Definition no_such (path : string) : exn :=
  FileNotFoundError ("[Errno 2] No such file or directory: '" ++ path ++ "'").
Definition not_a_directory (path : string) : exn :=
  OtherException ("[Errno 20] Not a directory: '" ++ path ++ "'").
Definition is_a_directory (path : string) : exn :=
  OtherException ("[Errno 21] Is a directory: '" ++ path ++ "'").
Definition file_exists (path : string) : exn :=
  OtherException ("[Errno 17] File exists: '" ++ path ++ "'").

(** [os.makedirs(name)]: every missing directory on the way is
    created; a file on the way, or an existing target, is an error. *)
Fixpoint makedirs_from (name : string) (here rest : list string) (d : fs)
  : option exn * fs :=
  match rest with
  | [] => (None, d)
  | c :: rest' =>
      let here' := (here ++ [c])%list in
      match d !! here' with
      | Some (File _) =>
          (Some (match rest' with
                 | [] => file_exists name
                 | _ => not_a_directory name
                 end), d)
      | Some Dir =>
          match rest' with
          | [] => (Some (file_exists name), d)
          | _ => makedirs_from name here' rest' d
          end
      | None => makedirs_from name here' rest' (<[here' := Dir]> d)
      end
  end.

Definition do_makedirs (name : string) (d : fs) : (exn + unit) * fs :=
  if String.eqb name "" then (inl (no_such name), d)
  else match components name with
       | [] => (inl (file_exists name), d)
       | cs => match makedirs_from name [] cs d with
               | (Some e, d') => (inl e, d')
               | (None, d') => (inr tt, d')
               end
       end.

(** [os.listdir(path)]: the names directly below [path]. *)
Definition child_of (cs : list string) (entry : list string * node) : option string :=
  match List.rev (fst entry) with
  | n :: rparent => if decide (List.rev rparent = cs) then Some n else None
  | [] => None
  end.

Definition do_listdir (path : string) (d : fs) : exn + list string :=
  match lookup_path d path with
  | None => inl (no_such path)
  | Some (File _) => inl (not_a_directory path)
  | Some Dir => inr (omap (child_of (components path)) (map_to_list d))
  end.

(** [Image.open(fp)]. *)
Definition do_open (fp : string) (d : fs) : exn + picture :=
  match lookup_path d fp with
  | None => inl (no_such fp)
  | Some Dir => inl (is_a_directory fp)
  | Some (File (Bytes _)) =>
      inl (OtherException ("cannot identify image file '" ++ fp ++ "'"))
  | Some (File (Encoded _ _ img)) => inr img
  end.

(** [img.convert(mode)]: same content, the requested mode. *)
Definition do_convert (img : picture) (m : string) : exn + picture :=
  inr {| mode := m; pixels := pixels img |}.

(** The format [save] writes: the one given, or the one registered for
    the extension of the file name. *)
Definition format_of_extension (fp : string) : option string :=
  let ext := Str.lower (snd (posixpath.splitext fp)) in
  if String.eqb ext ".png" then Some "PNG"
  else if str_in ext [".jpg"; ".jpeg"] then Some "JPEG"
  else if String.eqb ext ".webp" then Some "WEBP"
  else None.

Definition upper_format (f : string) : option string :=
  let f := Str.lower f in
  if String.eqb f "png" then Some "PNG"
  else if String.eqb f "jpeg" then Some "JPEG"
  else if String.eqb f "webp" then Some "WEBP"
  else None.

(** The pixel modes each encoder writes. *)
Definition writes_mode (format m : string) : bool :=
  if String.eqb format "JPEG" then str_in m ["1"; "L"; "RGB"; "RGBX"; "CMYK"; "YCbCr"]
  else if String.eqb format "PNG" then str_in m ["1"; "L"; "LA"; "I"; "P"; "RGB"; "RGBA"]
  else true.

(** [img.save(fp, format, quality=quality)].  The format is settled
    first; then the file is opened for writing, which needs its
    directory and truncates an existing file; an encoder that refuses
    the mode leaves a file it created removed again. *)
Definition do_save (img : picture) (fp : string) (format : option string)
    (quality : option Z) (d : fs) : (exn + unit) * fs :=
  let resolved := match format with
                  | Some f => upper_format f
                  | None => format_of_extension fp
                  end in
  match resolved with
  | None => (inl (OtherException ("unknown file extension or format: " ++ fp)), d)
  | Some f =>
      let cs := components fp in
      match List.rev cs with
      | [] => (inl (is_a_directory fp), d)
      | _ :: rparent =>
          let parent := List.rev rparent in
          let parent_node := match parent with [] => Some Dir | _ => d !! parent end in
          match parent_node with
          | None => (inl (no_such fp), d)
          | Some (File _) => (inl (not_a_directory fp), d)
          | Some Dir =>
              match d !! cs with
              | Some Dir => (inl (is_a_directory fp), d)
              | old =>
                  if writes_mode f (mode img)
                  then (inr tt, <[cs := File (Encoded f quality img)]> d)
                  else (inl (OtherException ("cannot write mode " ++ mode img ++ " as " ++ f)),
                        match old with
                        | Some _ => <[cs := File (Bytes "")]> d
                        | None => d
                        end)
              end
          end
      end
  end.

Definition do_answer (c : call picture) (d : fs) : result c * fs :=
  match c return result c * fs with
  | os_path_exists path => (path_exists d path, d)
  | os_path_isfile path => (path_isfile d path, d)
  | os_path_isdir path => (path_isdir d path, d)
  | os_makedirs name => do_makedirs name d
  | os_listdir path => (do_listdir path d, d)
  | Image_open fp => (do_open fp d, d)
  | Image_convert img m => (do_convert img m, d)
  | Image_save img fp format quality => do_save img fp format quality d
  | print _ => (tt, d)
  end.

Definition world : World picture := {| state := fs; answer := do_answer |}.

End Disk.

(** ** Vocabulary of the properties *)

(** The supported formats, as [convert_image] tests them. *)
Definition is_webp (output_format : string) : bool :=
  String.eqb (Str.lower output_format) "webp".
Definition is_png_jpeg (output_format : string) : bool :=
  str_in (Str.lower output_format) ["png"; "jpeg"; "jpg"].
Definition supported (output_format : string) : bool :=
  is_webp output_format || is_png_jpeg output_format.

(** The line printed by the [except] clauses of [convert_image]. *)
Definition failure_line (input_path : string) (e : exn) : string :=
  match e with
  | FileNotFoundError _ => msg_not_found input_path
  | OtherException _ => msg_error input_path e
  end.

(** What [convert_image] prints last when its last call was a [save]
    that answered [r]. *)
Definition save_line (input_path final_output_path : string) (r : exn + unit) : string :=
  match r with
  | inr _ => msg_converted input_path final_output_path
  | inl e => failure_line input_path e
  end.

(** The calls of the converter: decode, convert, encode, print. *)
Definition converter_call {image : Type} (c : call image) : bool :=
  match c with
  | Image_open _ | Image_convert _ _ | Image_save _ _ _ _ | print _ => true
  | _ => false
  end.

(** The calls of one round of the walker's loop. *)
Definition entry_call {image : Type} (c : call image) : bool :=
  match c with
  | os_path_isfile _ => true
  | _ => converter_call c
  end.

(** The paths tested with [os.path.isfile], in order. *)
Fixpoint isfile_paths {image : Type} (t : list (call image)) : list string :=
  match t with
  | [] => []
  | os_path_isfile p :: t' => p :: isfile_paths t'
  | _ :: t' => isfile_paths t'
  end.

(** How many encode calls a trace holds. *)
Fixpoint save_count {image : Type} (t : list (call image)) : nat :=
  match t with
  | [] => O
  | Image_save _ _ _ _ :: t' => S (save_count t')
  | _ :: t' => save_count t'
  end.

(** [args] with another format string. *)
Definition with_format (args : Namespace) (f : string) : Namespace :=
  {| input_dir := input_dir args; output_dir := output_dir args;
     output_format := f; quality := quality args |}.

(** What [process_directory] does from line 50 on. *)
Definition enumerate {image : Type} (input_dir output_dir output_format : string)
    (quality : Z) : py image unit :=
  (let! names := listdir input_dir in
   for_each names (process_entry input_dir output_dir output_format quality))%py.

(** An encode call carries the quality [q] unchanged (webp) or carries
    none (png, jpeg). *)
Definition quality_as_given {image : Type} (q : Z) (c : call image) : Prop :=
  match c with
  | Image_save _ _ format quality =>
      (format = Some "webp" /\ quality = Some q) \/ (format = None /\ quality = None)
  | _ => True
  end.

(** ** The command line

    A model of [argparse] for the parser [main] builds: three
    positionals and [--quality] with [type=int] and [default=80].  It
    covers the command lines of the usage string, with [--quality N]
    or [--quality=N] anywhere among the positionals.  [None] stands
    for every command line outside that: those [argparse] rejects,
    and [-h], abbreviated options and the like. *)

Module argparse.

Definition is_digit (c : ascii) : bool :=
  let n := nat_of_ascii c in ((48 <=? n)%nat && (n <=? 57)%nat)%bool.

Fixpoint all_digits (s : string) : bool :=
  match s with
  | EmptyString => true
  | String c s' => is_digit c && all_digits s'
  end.

(** [\d*\.\d+] *)
Fixpoint fraction (s : string) : bool :=
  match s with
  | EmptyString => false
  | String c s' =>
      if Ascii.eqb c "." then negb (String.eqb s' "") && all_digits s'
      else is_digit c && fraction s'
  end.

(** [_negative_number_matcher], [^-\d+$|^-\d*\.\d+$]. *)
Definition negative_number (tok : string) : bool :=
  match tok with
  | String c rest =>
      Ascii.eqb c "-"
      && ((negb (String.eqb rest "") && all_digits rest) || fraction rest)
  | EmptyString => false
  end.

(** A token is read as an option when it starts with [-], is longer
    than that, and is not a negative number (this parser has no option
    that looks like one). *)
Definition option_like (tok : string) : bool :=
  Str.startswith "-" tok && negb (String.eqb tok "-") && negb (negative_number tok).

(** [int(s)] on the literals [digits] and [-digits]. *)
Definition int_ (s : string) : option Z :=
  option_map Z.of_int (NilZero.int_of_string s).

(** [str(n)] for an integer. *)
Definition str_int (n : Z) : string := NilZero.string_of_int (Z.to_int n).

Fixpoint parse_known (argv positionals : list string) (quality : Z)
  : option (list string * Z) :=
  match argv with
  | [] => Some (positionals, quality)
  | tok :: rest =>
      if String.eqb tok "--quality" then
        match rest with
        | v :: rest' =>
            if option_like v then None
            else match int_ v with
                 | Some n => parse_known rest' positionals n
                 | None => None
                 end
        | [] => None
        end
      else if Str.has_prefix "--quality=" tok then
        match int_ (Str.drop 10 tok) with
        | Some n => parse_known rest positionals n
        | None => None
        end
      else if option_like tok then None
      else parse_known rest (positionals ++ [tok])%list quality
  end.

Definition parse_args (argv : list string) : option Namespace :=
  match parse_known argv [] 80 with
  | Some ([i; o; f], q) =>
      Some {| input_dir := i; output_dir := o; output_format := f; quality := q |}
  | _ => None
  end.

End argparse.

(** ** A sample tree

    The scenario of the specification: a decodable [photo.png] with
    transparency, a text file, a palette [logo.bmp], a subdirectory
    with a picture of its own, and an empty output directory. *)

Module Sample.

Import Disk.

Definition photo : picture := {| mode := "RGBA"; pixels := 7 |}.
Definition logo : picture := {| mode := "P"; pixels := 9 |}.
Definition rgb_photo : picture := {| mode := "RGB"; pixels := 7 |}.

Definition disk : fs :=
  <[ ["out"] := Dir ]>
  (<[ ["in"] := Dir ]>
  (<[ ["in"; "photo.png"] := File (Encoded "PNG" None photo) ]>
  (<[ ["in"; "notes.txt"] := File (Bytes "hello") ]>
  (<[ ["in"; "logo.bmp"] := File (Encoded "BMP" None logo) ]>
  (<[ ["in"; "sub"] := Dir ]>
  (<[ ["in"; "sub"; "x.png"] := File (Encoded "PNG" None photo) ]> ∅)))))).

End Sample.

(** * Properties *)

Example lower_ex : Str.lower "WebP" = "webp".
Proof. reflexivity. Qed.

Example basename_ex : posixpath.basename "in/sub/photo.PNG" = "photo.PNG".
Proof. reflexivity. Qed.

Example splitext_ex1 : posixpath.splitext "a.tar.gz" = ("a.tar", ".gz").
Proof. reflexivity. Qed.

Example splitext_ex2 : posixpath.splitext ".bashrc" = (".bashrc", "").
Proof. reflexivity. Qed.

Example splitext_ex3 : posixpath.splitext "d.x/..rc" = ("d.x/..rc", "").
Proof. reflexivity. Qed.

Example splitext_ex4 : posixpath.splitext "d.x/..a.rc" = ("d.x/..a", ".rc").
Proof. reflexivity. Qed.

Example join_ex : posixpath.join "out" "photo.webp" = "out/photo.webp"
                  /\ posixpath.join "out/" "photo.webp" = "out/photo.webp"
                  /\ posixpath.join "" "photo.webp" = "photo.webp".
Proof. repeat split; reflexivity. Qed.

(** ** Strings and paths *)

Section PathFacts.

Import Str posixpath.

Lemma append_cons (c : ascii) (s t : string) : String c s ++ t = String c (s ++ t).
Proof. reflexivity. Qed.

Lemma append_nil_r (s : string) : s ++ "" = s.
Proof. induction s as [|c s IH]; [reflexivity|]. now rewrite append_cons, IH. Qed.

Lemma take_drop (n : nat) (s : string) : take n s ++ drop n s = s.
Proof.
  revert s. induction n as [|n IH]; intros [|c s]; simpl; try reflexivity.
  now rewrite append_cons, IH.
Qed.

Lemma contains_take (c : ascii) (n : nat) (s : string) :
  contains c s = false -> contains c (take n s) = false.
Proof.
  revert s. induction n as [|n IH]; intros [|a s]; simpl; try reflexivity.
  intros H. apply orb_false_iff in H as [Ha Hs].
  rewrite Ha. simpl. now apply IH.
Qed.

(** [rfind] finds the last occurrence: nothing after it matches. *)
Lemma rfind_from_spec (c : ascii) (s : string) (i : Z) :
  0 <= i ->
  let r := rfind_from c s i in
  (r = -1 /\ contains c s = false)
  \/ (i <= r /\ contains c (drop (Z.to_nat (r - i + 1)) s) = false).
Proof.
  revert i. induction s as [|a s IH]; intros i Hi; simpl.
  - left. split; reflexivity.
  - destruct (IH (i + 1) ltac:(lia)) as [[Hr Hc]|[Hr Hc]].
    + rewrite Hr. simpl. destruct (Ascii.eqb a c) eqn:Hac.
      * right. split; [lia|]. replace (i - i + 1) with 1 by lia. exact Hc.
      * left. split; [reflexivity|]. simpl. exact Hc.
    + destruct (0 <=? rfind_from c s (i + 1)) eqn:Hle.
      * right. split; [lia|].
        replace (Z.to_nat (rfind_from c s (i + 1) - i + 1))
          with (S (Z.to_nat (rfind_from c s (i + 1) - (i + 1) + 1))) by lia.
        exact Hc.
      * apply Z.leb_gt in Hle. lia.
Qed.

Lemma basename_no_sep (p : string) : contains sep (basename p) = false.
Proof.
  unfold basename, rfind, slice_from.
  destruct (rfind_from_spec sep p 0 ltac:(lia)) as [[Hr Hc]|[Hr Hc]].
  - rewrite Hr. exact Hc.
  - replace (rfind_from sep p 0 + 1) with (rfind_from sep p 0 - 0 + 1) by lia.
    exact Hc.
Qed.

Lemma splitext_scan_spec (p : string) (dotIndex i : Z) (n : nat) (r : string * string) :
  splitext_scan p dotIndex i n = Some r ->
  r = (slice_to dotIndex p, slice_from dotIndex p).
Proof.
  revert i. induction n as [|n IH]; intros i; simpl; [discriminate|].
  destruct (char_at_differs p i extsep); [now intros [= <-]|apply IH].
Qed.

(** [splitext] cuts its argument in two. *)
Lemma splitext_app (p : string) : fst (splitext p) ++ snd (splitext p) = p.
Proof.
  unfold splitext.
  destruct (rfind sep p <? rfind extsep p); simpl.
  - destruct (splitext_scan _ _ _ _) as [r|] eqn:Hscan.
    + apply splitext_scan_spec in Hscan. subst r. apply take_drop.
    + simpl. apply append_nil_r.
  - apply append_nil_r.
Qed.

Lemma splitext_root_no_sep (p : string) :
  contains sep p = false -> contains sep (fst (splitext p)) = false.
Proof.
  intros Hp. unfold splitext.
  destruct (rfind sep p <? rfind extsep p); simpl; [|exact Hp].
  destruct (splitext_scan _ _ _ _) as [r|] eqn:Hscan; [|exact Hp].
  apply splitext_scan_spec in Hscan. subst r. now apply contains_take.
Qed.

(** The file name [convert_image] builds is never absolute, so [join]
    keeps the output directory. *)
Lemma output_filename_relative (input_path output_format : string) :
  startswith sep (output_filename input_path output_format) = false.
Proof.
  unfold output_filename.
  pose proof (splitext_root_no_sep _ (basename_no_sep input_path)) as H.
  destruct (fst (splitext (basename input_path))) as [|a stem]; [reflexivity|].
  rewrite append_cons. simpl in *. now apply orb_false_iff in H as [-> _].
Qed.

End PathFacts.

(** ** Running programs *)

Section RunFacts.

Context {image : Type} (W : World image).

Lemma run_prog_bind {A B : Type} (m : prog image A) (f : A -> prog image B) (s : state W) :
  run W (prog_bind m f) s =
  let '(a, s1, t1) := run W m s in
  let '(b, s2, t2) := run W (f a) s1 in
  (b, s2, (t1 ++ t2)%list).
Proof.
  revert s. induction m as [a|c k IH]; intros s; simpl.
  - now destruct (run W (f a) s) as [[b s2] t2].
  - destruct (answer W c s) as [x s1]. rewrite IH.
    destruct (run W (k x) s1) as [[a s2] t1].
    now destruct (run W (f a) s2) as [[b s3] t2].
Qed.

Lemma run_eta {R : Type} (p : prog image R) (s : state W) :
  run W p s = (value W p s, final W p s, trace W p s).
Proof. unfold value, final, trace. now destruct (run W p s) as [[r s'] t]. Qed.

End RunFacts.

(** Case analysis on the answers of the world, one call at a time. *)
Ltac unfold_py :=
  unfold try_except, bind, exists_, isfile, isdir, makedirs, listdir,
    open, convert, save, say, ret in *.

Ltac next_answer :=
  match goal with
  | |- context [answer ?W ?c ?s] =>
      let r := fresh "r" in
      let s' := fresh "s" in
      let E := fresh "E" in
      destruct (answer W c s) as [r s'] eqn:E; simpl in r; destruct r; simpl
  | |- context [match ?e with FileNotFoundError _ => _ | OtherException _ => _ end] =>
      is_var e; destruct e; simpl
  end.

Ltac answers := simpl; repeat next_answer.

Lemma png_jpeg_not_webp (output_format : string) :
  is_png_jpeg output_format = true -> is_webp output_format = false.
Proof.
  unfold is_png_jpeg, is_webp, str_in. simpl.
  intros H.
  destruct (String.eqb_spec (Str.lower output_format) "webp") as [Heq|]; [|reflexivity].
  rewrite Heq in H. discriminate.
Qed.

(** ** The single-file converter *)

Section ConvertImageFacts.

Context {image : Type} (W : World image).

(** The calls of [convert_image] are decode, convert, encode and
    print; the only file it writes is [final_output_path]. *)
Lemma convert_image_saves (input_path output_path output_format : string) (quality : Z)
    (s : state W) (img : image) (fp : string) (format : option string) (q : option Z) :
  In (Image_save img fp format q)
     (trace W (convert_image input_path output_path output_format quality) s) ->
  fp = final_output_path input_path output_path output_format
  /\ ((is_webp output_format = true /\ format = Some "webp" /\ q = Some quality)
      \/ (is_webp output_format = false /\ is_png_jpeg output_format = true
          /\ format = None /\ q = None)).
Proof.
  unfold trace, convert_image, convert_image_try, is_webp, is_png_jpeg.
  unfold_py.
  destruct (String.eqb (Str.lower output_format) "webp") eqn:Hw;
    [|destruct (str_in (Str.lower output_format) ["png"; "jpeg"; "jpg"]) eqn:Hp];
    answers; intros H; intuition (try discriminate);
    match goal with
    | H : Image_save _ _ _ _ = Image_save _ _ _ _ |- _ => inversion H; subst; clear H
    end; auto 10.
Qed.

Lemma convert_image_returns (input_path output_path output_format : string) (quality : Z)
    (s : state W) :
  value W (convert_image input_path output_path output_format quality) s = inr tt.
Proof.
  unfold value, convert_image, convert_image_try.
  unfold_py.
  destruct (String.eqb (Str.lower output_format) "webp");
    [|destruct (str_in (Str.lower output_format) ["png"; "jpeg"; "jpg"])];
    answers; reflexivity.
Qed.

End ConvertImageFacts.

(** C1. The output path of the single-file converter: the base name of
    the source without its extension, then a period and the lower-cased
    format string, inside the output directory ([join] adds the
    separator the directory lacks and never drops the directory).  It
    is the only path the converter ever writes. *)
Theorem convert_image_output_path {image : Type} (W : World image)
    (input_path output_path output_format : string) :
  fst (posixpath.splitext (posixpath.basename input_path))
    ++ snd (posixpath.splitext (posixpath.basename input_path))
    = posixpath.basename input_path
  /\ final_output_path input_path output_path output_format
     = output_path
       ++ (if (String.eqb output_path "" || Str.endswith posixpath.sep output_path)%bool
           then "" else "/")
       ++ fst (posixpath.splitext (posixpath.basename input_path))
       ++ "." ++ Str.lower output_format
  /\ forall (quality : Z) (s : state W) (img : image) (fp : string)
            (format : option string) (q : option Z),
       In (Image_save img fp format q)
          (trace W (convert_image input_path output_path output_format quality) s) ->
       fp = final_output_path input_path output_path output_format.
Proof.
  split; [apply splitext_app|]. split.
  - unfold final_output_path, posixpath.join.
    rewrite output_filename_relative. unfold output_filename.
    destruct (String.eqb output_path "" || Str.endswith posixpath.sep output_path)%bool;
      reflexivity.
  - intros quality s img fp format q H.
    now apply convert_image_saves in H as [-> _].
Qed.

(** C2. Target format webp, decodable input: the decoded image is
    converted to ["RGB"] first, and what is encoded is the result of
    that conversion, whose mode is ["RGB"] whatever the mode of the
    input was, with format ["webp"] and the given quality.
    [convert_mode] is the imaging library's contract for [convert]. *)
Theorem convert_image_webp {image : Type} (W : World image) (mode_of : image -> string)
    (convert_mode : forall img m s img' s',
        answer W (Image_convert img m) s = (inr img', s') -> mode_of img' = m)
    (input_path output_path output_format : string) (quality : Z)
    (s s1 : state W) (img : image) :
  is_webp output_format = true ->
  answer W (Image_open input_path) s = (inr img, s1) ->
  match answer W (Image_convert img "RGB") s1 with
  | (inr rgb, s2) =>
      mode_of rgb = "RGB"
      /\ trace W (convert_image input_path output_path output_format quality) s
         = [Image_open input_path;
            Image_convert img "RGB";
            Image_save rgb (final_output_path input_path output_path output_format)
              (Some "webp") (Some quality);
            print (save_line input_path
                     (final_output_path input_path output_path output_format)
                     (fst (answer W (Image_save rgb
                             (final_output_path input_path output_path output_format)
                             (Some "webp") (Some quality)) s2)))]
  | (inl e, _) =>
      trace W (convert_image input_path output_path output_format quality) s
      = [Image_open input_path; Image_convert img "RGB";
         print (failure_line input_path e)]
  end.
Proof.
  unfold is_webp. intros Hw Hopen.
  unfold trace, convert_image, convert_image_try. unfold_py.
  rewrite Hw. simpl. rewrite Hopen. simpl.
  destruct (answer W (Image_convert img "RGB") s1) as [[e|rgb] s2] eqn:Hconv; simpl.
  - destruct e; answers; reflexivity.
  - split; [now apply convert_mode in Hconv|].
    answers; reflexivity.
Qed.

(** C3. Target format png, jpeg or jpg, decodable input: the decoded
    image itself is encoded, with no conversion call, no format and no
    quality argument; the quality parameter does not occur in the
    program at all. *)
Theorem convert_image_png_jpeg {image : Type} (W : World image)
    (input_path output_path output_format : string) (quality : Z) :
  is_png_jpeg output_format = true ->
  (forall quality' : Z,
      convert_image (image := image) input_path output_path output_format quality'
      = convert_image input_path output_path output_format quality)
  /\ forall (s s1 : state W) (img : image),
       answer W (Image_open input_path) s = (inr img, s1) ->
       trace W (convert_image input_path output_path output_format quality) s
       = [Image_open input_path;
          Image_save img (final_output_path input_path output_path output_format) None None;
          print (save_line input_path
                   (final_output_path input_path output_path output_format)
                   (fst (answer W (Image_save img
                           (final_output_path input_path output_path output_format)
                           None None) s1)))].
Proof.
  intros Hp. pose proof (png_jpeg_not_webp _ Hp) as Hw.
  unfold is_png_jpeg, is_webp in *. split.
  - intros quality'. unfold convert_image, convert_image_try. now rewrite Hw.
  - intros s s1 img Hopen.
    unfold trace, convert_image, convert_image_try. unfold_py.
    rewrite Hw, Hp. simpl. rewrite Hopen. simpl.
    answers; reflexivity.
Qed.

(** C4, as the code has it.  With a format outside webp, png, jpeg and
    jpg the converter never encodes and always returns normally; it
    reports the unsupported format when the source decodes (the decode
    comes first, and its failure is what is reported otherwise). *)
Theorem convert_image_unsupported {image : Type} (W : World image)
    (input_path output_path output_format : string) (quality : Z) (s : state W) :
  supported output_format = false ->
  value W (convert_image input_path output_path output_format quality) s = inr tt
  /\ (forall img fp format q,
        ~ In (Image_save img fp format q)
             (trace W (convert_image input_path output_path output_format quality) s))
  /\ (forall img s1,
        answer W (Image_open input_path) s = (inr img, s1) ->
        trace W (convert_image input_path output_path output_format quality) s
        = [Image_open input_path; print (msg_unsupported output_format)])
  /\ (forall e s1,
        answer W (Image_open input_path) s = (inl e, s1) ->
        trace W (convert_image input_path output_path output_format quality) s
        = [Image_open input_path; print (failure_line input_path e)]).
Proof.
  unfold supported. intros Hs. apply orb_false_iff in Hs as [Hw Hp].
  split; [apply convert_image_returns|]. split; [|split].
  - intros img fp format q H. apply convert_image_saves in H as [_ [[H _]|[_ [H _]]]];
      congruence.
  - intros img s1 Hopen. unfold is_webp, is_png_jpeg in *.
    unfold trace, convert_image, convert_image_try. unfold_py.
    rewrite Hw, Hp. simpl. rewrite Hopen. simpl.
    answers; reflexivity.
  - intros e s1 Hopen.
    unfold trace, convert_image, convert_image_try. unfold_py.
    simpl. rewrite Hopen. simpl.
    destruct e; answers; reflexivity.
Qed.

(** ** The directory walker *)

Section WalkerFacts.

Context {image : Type} (W : World image).

Lemma convert_image_calls (input_path output_path output_format : string) (quality : Z)
    (s : state W) :
  forallb converter_call
    (trace W (convert_image input_path output_path output_format quality) s) = true.
Proof.
  unfold trace, convert_image, convert_image_try. unfold_py.
  destruct (String.eqb (Str.lower output_format) "webp");
    [|destruct (str_in (Str.lower output_format) ["png"; "jpeg"; "jpg"])];
    answers; reflexivity.
Qed.

Lemma isfile_paths_converter (t : list (call image)) :
  forallb converter_call t = true -> isfile_paths t = [].
Proof.
  induction t as [|c t IH]; [reflexivity|]. simpl.
  intros H. apply andb_true_iff in H as [Hc Ht].
  destruct c; simpl in *; try discriminate; auto.
Qed.

Lemma forallb_entry_converter (t : list (call image)) :
  forallb converter_call t = true -> forallb entry_call t = true.
Proof.
  induction t as [|c t IH]; [reflexivity|]. simpl.
  intros H. apply andb_true_iff in H as [Hc Ht].
  rewrite (IH Ht). destruct c; simpl in *; try discriminate; reflexivity.
Qed.

(** One round of the loop, by the answers to its first two calls. *)
Lemma process_entry_run (input_dir output_dir output_format : string) (quality : Z)
    (filename : string) (s : state W) :
  let input_path := posixpath.join input_dir filename in
  match answer W (os_path_isfile input_path) s with
  | (false, s1) =>
      run W (process_entry input_dir output_dir output_format quality filename) s
      = (inr tt, s1, [os_path_isfile input_path])
  | (true, s1) =>
      match answer W (Image_open input_path) s1 with
      | (inl e, s2) =>
          run W (process_entry input_dir output_dir output_format quality filename) s
          = (inr tt, snd (answer W (print (msg_skipping input_path)) s2),
             [os_path_isfile input_path; Image_open input_path;
              print (msg_skipping input_path)])
      | (inr _, s2) =>
          run W (process_entry input_dir output_dir output_format quality filename) s
          = (inr tt,
             final W (convert_image input_path output_dir output_format quality) s2,
             os_path_isfile input_path :: Image_open input_path
               :: trace W (convert_image input_path output_dir output_format quality) s2)
      end
  end.
Proof.
  intros input_path.
  remember (convert_image input_path output_dir output_format quality) as conv eqn:Hconv.
  assert (Hval : forall s', value W conv s' = inr tt)
    by (intros s'; subst conv; apply convert_image_returns).
  destruct (answer W (os_path_isfile input_path) s) as [[|] s1] eqn:E1.
  - destruct (answer W (Image_open input_path) s1) as [[e|img] s2] eqn:E2;
      unfold process_entry; fold input_path; rewrite <- Hconv; unfold_py;
      simpl; rewrite E1; simpl; rewrite E2; simpl.
    + now destruct (answer W (print (msg_skipping input_path)) s2) as [[] s3].
    + rewrite run_prog_bind, (run_eta W conv s2), Hval. simpl.
      now rewrite app_nil_r.
  - unfold process_entry; fold input_path; rewrite <- Hconv; unfold_py.
    simpl. now rewrite E1.
Qed.

Lemma process_entry_returns (input_dir output_dir output_format : string) (quality : Z)
    (filename : string) (s : state W) :
  value W (process_entry input_dir output_dir output_format quality filename) s = inr tt.
Proof.
  pose proof (process_entry_run input_dir output_dir output_format quality filename s) as H.
  cbv zeta in H. unfold value.
  destruct (answer W (os_path_isfile _) s) as [[|] s1]; [|now rewrite H].
  destruct (answer W (Image_open _) s1) as [[e|img] s2]; now rewrite H.
Qed.

Lemma process_entry_isfile (input_dir output_dir output_format : string) (quality : Z)
    (filename : string) (s : state W) :
  isfile_paths (trace W (process_entry input_dir output_dir output_format quality filename) s)
  = [posixpath.join input_dir filename].
Proof.
  pose proof (process_entry_run input_dir output_dir output_format quality filename s) as H.
  cbv zeta in H. unfold trace.
  destruct (answer W (os_path_isfile _) s) as [[|] s1]; [|now rewrite H].
  destruct (answer W (Image_open _) s1) as [[e|img] s2]; rewrite H; [reflexivity|].
  simpl. f_equal. apply isfile_paths_converter, convert_image_calls.
Qed.

Lemma process_entry_calls (input_dir output_dir output_format : string) (quality : Z)
    (filename : string) (s : state W) :
  forallb entry_call
    (trace W (process_entry input_dir output_dir output_format quality filename) s) = true.
Proof.
  pose proof (process_entry_run input_dir output_dir output_format quality filename s) as H.
  cbv zeta in H. unfold trace.
  destruct (answer W (os_path_isfile _) s) as [[|] s1]; [|now rewrite H].
  destruct (answer W (Image_open _) s1) as [[e|img] s2]; rewrite H; [reflexivity|].
  simpl. apply forallb_entry_converter, convert_image_calls.
Qed.

(** The loop goes round once per name, in order, whatever happens in
    a round. *)
Lemma for_each_cons (input_dir output_dir output_format : string) (quality : Z)
    (filename : string) (names : list string) (s : state W) :
  let body := process_entry input_dir output_dir output_format quality in
  run W (for_each (filename :: names) body) s
  = (value W (for_each names body) (final W (body filename) s),
     final W (for_each names body) (final W (body filename) s),
     (trace W (body filename) s
      ++ trace W (for_each names body) (final W (body filename) s))%list).
Proof.
  intros body.
  change (for_each (filename :: names) body)
    with (bind (body filename) (fun _ => for_each names body)).
  unfold bind. rewrite run_prog_bind.
  rewrite (run_eta W (body filename) s).
  unfold body at 1. rewrite process_entry_returns.
  now rewrite (run_eta W (for_each names body) _).
Qed.

Lemma for_each_entries (input_dir output_dir output_format : string) (quality : Z)
    (names : list string) (s : state W) :
  let body := process_entry input_dir output_dir output_format quality in
  value W (for_each names body) s = inr tt
  /\ isfile_paths (trace W (for_each names body) s) = map (posixpath.join input_dir) names
  /\ forallb entry_call (trace W (for_each names body) s) = true.
Proof.
  intros body. revert s. induction names as [|n names IH]; intros s.
  - repeat split; reflexivity.
  - pose proof (for_each_cons input_dir output_dir output_format quality n names s) as H.
    cbv zeta in H. fold body in H.
    destruct (IH (final W (body n) s)) as (Hv & Hp & Hc).
    unfold value, trace in *. rewrite H. cbn [fst snd]. split; [exact Hv|]. split.
    + assert (Happ : forall t1 t2 : list (call image),
                 isfile_paths (t1 ++ t2) = (isfile_paths t1 ++ isfile_paths t2)%list).
      { induction t1 as [|c t1 IH1]; intros t2; [reflexivity|].
        destruct c; simpl; rewrite ?IH1; reflexivity. }
      rewrite Happ, Hp.
      pose proof (process_entry_isfile input_dir output_dir output_format quality n s) as He.
      unfold trace in He. fold body in He. now rewrite He.
    + rewrite forallb_app, Hc, andb_true_r.
      apply process_entry_calls.
Qed.

(** The whole walker, by the answers to its first calls. *)
Lemma process_directory_run (input_dir output_dir output_format : string) (quality : Z)
    (s : state W) :
  let rest := enumerate input_dir output_dir output_format quality in
  match answer W (os_path_exists output_dir) s with
  | (true, s1) =>
      run W (process_directory input_dir output_dir output_format quality) s
      = (value W rest s1, final W rest s1, os_path_exists output_dir :: trace W rest s1)
  | (false, s1) =>
      match answer W (os_makedirs output_dir) s1 with
      | (inl e, s2) =>
          run W (process_directory input_dir output_dir output_format quality) s
          = (inl e, s2, [os_path_exists output_dir; os_makedirs output_dir])
      | (inr _, s2) =>
          let s3 := snd (answer W (print (msg_created output_dir)) s2) in
          run W (process_directory input_dir output_dir output_format quality) s
          = (value W rest s3, final W rest s3,
             os_path_exists output_dir :: os_makedirs output_dir
               :: print (msg_created output_dir) :: trace W rest s3)
      end
  end.
Proof.
  intros rest.
  unfold process_directory.
  change (let! names := listdir input_dir
          in for_each names (process_entry input_dir output_dir output_format quality))%py
    with rest.
  remember rest as k eqn:Hk. clear Hk.
  unfold bind, exists_, makedirs, say, ret. simpl.
  destruct (answer W (os_path_exists output_dir) s) as [[|] s1]; simpl.
  - now rewrite (run_eta W k s1).
  - destruct (answer W (os_makedirs output_dir) s1) as [[e|[]] s2]; simpl; [reflexivity|].
    destruct (answer W (print (msg_created output_dir)) s2) as [[] s3]; simpl.
    now rewrite (run_eta W k s3).
Qed.

(** The enumeration: one listing, of the input directory, then the
    loop over the names it gave. *)
Lemma enumerate_run (input_dir output_dir output_format : string) (quality : Z)
    (s : state W) :
  let body := process_entry input_dir output_dir output_format quality in
  match answer W (os_listdir input_dir) s with
  | (inl e, s1) =>
      run W (enumerate input_dir output_dir output_format quality) s
      = (inl e, s1, [os_listdir input_dir])
  | (inr names, s1) =>
      run W (enumerate input_dir output_dir output_format quality) s
      = (inr tt, final W (for_each names body) s1,
         os_listdir input_dir :: trace W (for_each names body) s1)
  end.
Proof.
  intros body. unfold enumerate, bind, listdir. fold body. cbn [prog_bind run].
  destruct (answer W (os_listdir input_dir) s) as [[e|names] s1]; cbn [prog_bind];
    [reflexivity|].
  rewrite (run_eta W (for_each names body) s1). subst body.
  now destruct (for_each_entries input_dir output_dir output_format quality names s1) as [-> _].
Qed.

End WalkerFacts.


(** C6. When the input directory is missing or is not a directory,
    [main] tests it, prints the error line and returns: two calls in
    all, none of them a listing or a directory creation, and the
    interpreter exits with status [0]. *)
Theorem main_missing_input_dir {image : Type} (W : World image)
    (args : Namespace) (s s1 : state W) :
  answer W (os_path_isdir (input_dir args)) s = (false, s1) ->
  run W (main args) s
  = (inr tt,
     snd (answer W (print (msg_no_input_dir (input_dir args))) s1),
     [os_path_isdir (input_dir args); print (msg_no_input_dir (input_dir args))])
  /\ exit_status (value W (main args) s) = 0
  /\ (forall p, ~ In (os_makedirs p) (trace W (main args) s))
  /\ (forall p, ~ In (os_listdir p) (trace W (main args) s)).
Proof.
  intros Hdir.
  assert (Hrun : run W (main args) s
                 = (inr tt,
                    snd (answer W (print (msg_no_input_dir (input_dir args))) s1),
                    [os_path_isdir (input_dir args);
                     print (msg_no_input_dir (input_dir args))])).
  { unfold main, bind, isdir, say, ret. cbn [prog_bind run]. rewrite Hdir.
    cbn [negb prog_bind run].
    now destruct (answer W (print (msg_no_input_dir (input_dir args))) s1) as [[] s2]. }
  split; [exact Hrun|]. unfold value, trace. rewrite Hrun. simpl.
  split; [reflexivity|].
  split; intros p [H|[H|[]]]; discriminate.
Qed.

(** C7, as the code has it.  When the output directory does not exist
    the walker's next call is [os.makedirs] on it.  If that call
    returns, the creation line is printed next and only then does the
    enumeration start; if it raises, the exception leaves the walker
    and nothing else is called. *)
Theorem process_directory_creates_output_dir {image : Type} (W : World image)
    (input_dir output_dir output_format : string) (quality : Z) (s s1 : state W) :
  answer W (os_path_exists output_dir) s = (false, s1) ->
  match answer W (os_makedirs output_dir) s1 with
  | (inr _, s2) =>
      let s3 := snd (answer W (print (msg_created output_dir)) s2) in
      trace W (process_directory input_dir output_dir output_format quality) s
      = os_path_exists output_dir :: os_makedirs output_dir
          :: print (msg_created output_dir)
          :: trace W (enumerate input_dir output_dir output_format quality) s3
  | (inl e, s2) =>
      run W (process_directory input_dir output_dir output_format quality) s
      = (inl e, s2, [os_path_exists output_dir; os_makedirs output_dir])
  end.
Proof.
  intros Hex.
  pose proof (process_directory_run W input_dir output_dir output_format quality s) as H.
  cbv zeta in H. rewrite Hex in H.
  destruct (answer W (os_makedirs output_dir) s1) as [[e|u] s2]; [exact H|].
  cbv zeta. unfold trace at 1. now rewrite H.
Qed.

(** The walker from its first call to its last, by the answers to the
    existence test, the directory creation and the listing. *)
Lemma process_directory_steps {image : Type} (W : World image)
    (input_dir output_dir output_format : string) (quality : Z) (s : state W) :
  let body := process_entry input_dir output_dir output_format quality in
  match answer W (os_path_exists output_dir) s with
  | (true, s1) =>
      match answer W (os_listdir input_dir) s1 with
      | (inr names, s2) =>
          run W (process_directory input_dir output_dir output_format quality) s
          = (inr tt, final W (for_each names body) s2,
             os_path_exists output_dir :: os_listdir input_dir
               :: trace W (for_each names body) s2)
      | (inl e, s2) =>
          run W (process_directory input_dir output_dir output_format quality) s
          = (inl e, s2, [os_path_exists output_dir; os_listdir input_dir])
      end
  | (false, s1) =>
      match answer W (os_makedirs output_dir) s1 with
      | (inl e, s2) =>
          run W (process_directory input_dir output_dir output_format quality) s
          = (inl e, s2, [os_path_exists output_dir; os_makedirs output_dir])
      | (inr _, s2) =>
          match answer W (os_listdir input_dir)
                  (snd (answer W (print (msg_created output_dir)) s2)) with
          | (inr names, s4) =>
              run W (process_directory input_dir output_dir output_format quality) s
              = (inr tt, final W (for_each names body) s4,
                 os_path_exists output_dir :: os_makedirs output_dir
                   :: print (msg_created output_dir) :: os_listdir input_dir
                   :: trace W (for_each names body) s4)
          | (inl e, s4) =>
              run W (process_directory input_dir output_dir output_format quality) s
              = (inl e, s4,
                 [os_path_exists output_dir; os_makedirs output_dir;
                  print (msg_created output_dir); os_listdir input_dir])
          end
      end
  end.
Proof.
  intros body.
  pose proof (process_directory_run W input_dir output_dir output_format quality s) as H.
  cbv zeta in H.
  assert (He : forall s0,
             match answer W (os_listdir input_dir) s0 with
             | (inr names, s2) =>
                 run W (enumerate input_dir output_dir output_format quality) s0
                 = (inr tt, final W (for_each names body) s2,
                    os_listdir input_dir :: trace W (for_each names body) s2)
             | (inl e, s2) =>
                 run W (enumerate input_dir output_dir output_format quality) s0
                 = (inl e, s2, [os_listdir input_dir])
             end).
  { intros s0.
    pose proof (enumerate_run W input_dir output_dir output_format quality s0) as H0.
    cbv zeta in H0. fold body in H0.
    now destruct (answer W (os_listdir input_dir) s0) as [[e|names] s2]. }
  destruct (answer W (os_path_exists output_dir) s) as [[|] s1].
  - specialize (He s1). unfold value, final, trace in H.
    destruct (answer W (os_listdir input_dir) s1) as [[e|names] s2];
      rewrite H, He; reflexivity.
  - destruct (answer W (os_makedirs output_dir) s1) as [[e|u] s2]; [exact H|].
    specialize (He (snd (answer W (print (msg_created output_dir)) s2))).
    unfold value, final, trace in H.
    destruct (answer W (os_listdir input_dir) _) as [[e|names] s4];
      rewrite H, He; reflexivity.
Qed.


(** ** The quality value *)

Section QualityFacts.

Context {image : Type} (W : World image).

Lemma convert_image_quality (input_path output_path output_format : string) (q : Z)
    (s : state W) :
  Forall (quality_as_given q)
    (trace W (convert_image input_path output_path output_format q) s).
Proof.
  apply List.Forall_forall. intros c Hc.
  destruct c; simpl; try exact I.
  apply convert_image_saves in Hc as [_ [(_ & -> & ->)|(_ & _ & -> & ->)]]; auto.
Qed.

Lemma process_entry_quality (input_dir output_dir output_format : string) (q : Z)
    (filename : string) (s : state W) :
  Forall (quality_as_given q)
    (trace W (process_entry input_dir output_dir output_format q filename) s).
Proof.
  pose proof (process_entry_run W input_dir output_dir output_format q filename s) as H.
  cbv zeta in H. unfold trace.
  destruct (answer W (os_path_isfile _) s) as [[|] s1].
  - destruct (answer W (Image_open _) s1) as [[e|img] s2]; rewrite H; simpl.
    + repeat constructor.
    + repeat (constructor; [exact I|]). apply convert_image_quality.
  - rewrite H. repeat constructor.
Qed.

Lemma for_each_quality (input_dir output_dir output_format : string) (q : Z)
    (names : list string) (s : state W) :
  Forall (quality_as_given q)
    (trace W (for_each names (process_entry input_dir output_dir output_format q)) s).
Proof.
  revert s. induction names as [|n names IH]; intros s; [constructor|].
  pose proof (for_each_cons W input_dir output_dir output_format q n names s) as H.
  cbv zeta in H. unfold trace at 1. rewrite H. cbn [snd].
  apply Forall_app. split; [apply process_entry_quality|apply IH].
Qed.

Lemma enumerate_quality (input_dir output_dir output_format : string) (q : Z)
    (s : state W) :
  Forall (quality_as_given q)
    (trace W (enumerate input_dir output_dir output_format q) s).
Proof.
  pose proof (enumerate_run W input_dir output_dir output_format q s) as H.
  cbv zeta in H. unfold trace.
  destruct (answer W (os_listdir input_dir) s) as [[e|names] s1]; rewrite H; cbn [snd].
  - repeat constructor.
  - constructor; [exact I|]. apply for_each_quality.
Qed.

Lemma process_directory_quality (input_dir output_dir output_format : string) (q : Z)
    (s : state W) :
  Forall (quality_as_given q)
    (trace W (process_directory input_dir output_dir output_format q) s).
Proof.
  pose proof (process_directory_run W input_dir output_dir output_format q s) as H.
  cbv zeta in H. unfold trace at 1.
  destruct (answer W (os_path_exists output_dir) s) as [[|] s1].
  - rewrite H. cbn [snd]. constructor; [exact I|]. apply enumerate_quality.
  - destruct (answer W (os_makedirs output_dir) s1) as [[e|u] s2]; rewrite H; cbn [snd].
    + repeat constructor.
    + repeat (constructor; [exact I|]). apply enumerate_quality.
Qed.

(** [main], by the answer to its test of the input directory. *)
Lemma main_run (args : Namespace) (s : state W) :
  let walk := process_directory (input_dir args) (output_dir args)
                (Str.lower (output_format args)) (quality args) in
  match answer W (os_path_isdir (input_dir args)) s with
  | (false, s1) =>
      run W (main args) s
      = (inr tt, snd (answer W (print (msg_no_input_dir (input_dir args))) s1),
         [os_path_isdir (input_dir args); print (msg_no_input_dir (input_dir args))])
  | (true, s1) =>
      match value W walk s1 with
      | inl e =>
          run W (main args) s
          = (inl e, final W walk s1, os_path_isdir (input_dir args) :: trace W walk s1)
      | inr _ =>
          run W (main args) s
          = (inr tt, snd (answer W (print msg_completed) (final W walk s1)),
             os_path_isdir (input_dir args)
               :: (trace W walk s1 ++ [print msg_completed])%list)
      end
  end.
Proof.
  intros walk. unfold main. fold walk. remember walk as k eqn:Hk. clear Hk walk.
  unfold bind, isdir, say, ret. cbn [prog_bind run].
  destruct (answer W (os_path_isdir (input_dir args)) s) as [[|] s1]; cbn [negb].
  - rewrite run_prog_bind, (run_eta W k s1).
    destruct (value W k s1) as [e|u]; cbn [run].
    + now rewrite app_nil_r.
    + now destruct (answer W (print msg_completed) (final W k s1)) as [[] s2].
  - cbn [prog_bind run].
    now destruct (answer W (print (msg_no_input_dir (input_dir args))) s1) as [[] s2].
Qed.

Lemma main_quality (args : Namespace) (s : state W) :
  Forall (quality_as_given (quality args)) (trace W (main args) s).
Proof.
  pose proof (main_run args s) as H. cbv zeta in H. unfold trace at 1.
  destruct (answer W (os_path_isdir (input_dir args)) s) as [[|] s1].
  - destruct (value W _ s1) as [e|u]; rewrite H; cbn [snd].
    + constructor; [exact I|]. apply process_directory_quality.
    + constructor; [exact I|]. apply Forall_app. split;
        [apply process_directory_quality|repeat constructor].
  - rewrite H. repeat constructor.
Qed.

End QualityFacts.

Section ArgparseFacts.

Import argparse.

Lemma string_of_uint_digits (d : Decimal.uint) :
  all_digits (NilEmpty.string_of_uint d) = true.
Proof. induction d; simpl; auto. Qed.

Lemma int_str_int (q : Z) : int_ (str_int q) = Some q.
Proof.
  unfold int_, str_int. rewrite NilZero.isi.
  - simpl. now rewrite DecimalZ.of_to.
  - destruct q; simpl; try discriminate.
    intros [= H]. now apply Unsigned.to_uint_nonnil in H.
  - destruct q; simpl; try discriminate.
    intros [= H]. now apply Unsigned.to_uint_nonnil in H.
Qed.

Lemma str_int_not_option (q : Z) : option_like (str_int q) = false.
Proof.
  unfold option_like, str_int.
  destruct q as [|p|p]; [reflexivity| |].
  - simpl. unfold NilZero.string_of_uint.
    pose proof (Unsigned.to_uint_nonnil p) as Hnn.
    pose proof (string_of_uint_digits (Pos.to_uint p)) as Hd.
    destruct (Pos.to_uint p) as [|d|d|d|d|d|d|d|d|d|d]; try reflexivity; now destruct Hnn.
  - simpl. unfold NilZero.string_of_uint.
    pose proof (Unsigned.to_uint_nonnil p) as Hnn.
    pose proof (string_of_uint_digits (Pos.to_uint p)) as Hd.
    destruct (Pos.to_uint p) as [|d|d|d|d|d|d|d|d|d|d]; [now destruct Hnn|..];
      simpl in *; rewrite Hd; reflexivity.
Qed.

Lemma positional_token (tok : string) :
  option_like tok = false ->
  String.eqb tok "--quality" = false /\ Str.has_prefix "--quality=" tok = false.
Proof.
  intros H.
  destruct tok as [|c1 [|c2 t]]; [split; reflexivity| |].
  - split; cbn [String.eqb Str.has_prefix]; apply andb_false_r.
  - destruct (Ascii.eqb_spec c1 "-") as [->|Hc1].
    + destruct (Ascii.eqb_spec c2 "-") as [->|Hc2]; [discriminate H|].
      apply Ascii.eqb_neq in Hc2.
      split; cbn [String.eqb Str.has_prefix];
        rewrite ?(Ascii.eqb_sym "-" c2), Hc2; apply andb_false_r.
    + apply Ascii.eqb_neq in Hc1.
      split; cbn [String.eqb Str.has_prefix];
        rewrite ?(Ascii.eqb_sym "-" c1), Hc1; reflexivity.
Qed.

Lemma parse_args_quality (i o f : string) (q : Z) :
  option_like i = false -> option_like o = false -> option_like f = false ->
  parse_args [i; o; f; "--quality"; str_int q]
  = Some {| input_dir := i; output_dir := o; output_format := f; quality := q |}.
Proof.
  intros Hi Ho Hf.
  destruct (positional_token i Hi) as [Hi1 Hi2].
  destruct (positional_token o Ho) as [Ho1 Ho2].
  destruct (positional_token f Hf) as [Hf1 Hf2].
  unfold parse_args. cbn [parse_known].
  rewrite Hi1, Hi2, Hi, Ho1, Ho2, Ho, Hf1, Hf2, Hf.
  cbn [String.eqb Ascii.eqb Bool.eqb]. 
  rewrite str_int_not_option, int_str_int. reflexivity.
Qed.

End ArgparseFacts.

(** ** From the command line to the encoder *)

Section EndToEnd.

Context {image : Type} (W : World image).

Lemma convert_image_webp_trace (input_path output_path output_format : string)
    (quality : Z) (s s1 s2 : state W) (img rgb : image) :
  is_webp output_format = true ->
  answer W (Image_open input_path) s = (inr img, s1) ->
  answer W (Image_convert img "RGB") s1 = (inr rgb, s2) ->
  trace W (convert_image input_path output_path output_format quality) s
  = [Image_open input_path; Image_convert img "RGB";
     Image_save rgb (final_output_path input_path output_path output_format)
       (Some "webp") (Some quality);
     print (save_line input_path
              (final_output_path input_path output_path output_format)
              (fst (answer W (Image_save rgb
                      (final_output_path input_path output_path output_format)
                      (Some "webp") (Some quality)) s2)))].
Proof.
  unfold is_webp. intros Hw Hopen Hconv.
  unfold trace, convert_image, convert_image_try. unfold_py.
  rewrite Hw. simpl. rewrite Hopen. simpl. rewrite Hconv. simpl.
  answers; reflexivity.
Qed.

Lemma convert_image_unsupported_trace (input_path output_path output_format : string)
    (quality : Z) (s s1 : state W) (img : image) :
  supported output_format = false ->
  answer W (Image_open input_path) s = (inr img, s1) ->
  trace W (convert_image input_path output_path output_format quality) s
  = [Image_open input_path; print (msg_unsupported output_format)].
Proof.
  unfold supported, is_webp, is_png_jpeg. intros Hs Hopen.
  apply orb_false_iff in Hs as [Hw Hp].
  unfold trace, convert_image, convert_image_try. unfold_py.
  rewrite Hw, Hp. simpl. rewrite Hopen. simpl.
  answers; reflexivity.
Qed.

(** [main] on a valid input directory with the output directory in
    place: the two tests, the listing, the loop over the listed names
    with the arguments of the command line, the completion line. *)
Lemma main_walk (args : Namespace) (s s1 s2 s3 : state W) (names : list string) :
  answer W (os_path_isdir (input_dir args)) s = (true, s1) ->
  answer W (os_path_exists (output_dir args)) s1 = (true, s2) ->
  answer W (os_listdir (input_dir args)) s2 = (inr names, s3) ->
  trace W (main args) s
  = os_path_isdir (input_dir args) :: os_path_exists (output_dir args)
      :: os_listdir (input_dir args)
      :: (trace W (for_each names
                     (process_entry (input_dir args) (output_dir args)
                        (Str.lower (output_format args)) (quality args))) s3
          ++ [print msg_completed])%list
  /\ value W (main args) s = inr tt.
Proof.
  intros Hdir Hex Hls.
  pose proof (main_run W args s) as H. cbv zeta in H. rewrite Hdir in H.
  pose proof (process_directory_steps W (input_dir args) (output_dir args)
                (Str.lower (output_format args)) (quality args) s1) as Hw.
  cbv zeta in Hw. rewrite Hex, Hls in Hw.
  unfold value at 1, final, trace at 1 2 in H. rewrite Hw in H. cbn [fst snd] in H.
  unfold trace at 1, value. rewrite H. now split.
Qed.

Lemma for_each_single (input_dir output_dir output_format : string) (quality : Z)
    (n : string) (s : state W) :
  trace W (for_each [n] (process_entry input_dir output_dir output_format quality)) s
  = trace W (process_entry input_dir output_dir output_format quality n) s.
Proof.
  pose proof (for_each_cons W input_dir output_dir output_format quality n [] s) as H.
  cbv zeta in H. unfold trace at 1. rewrite H. cbn [snd].
  change (trace W (for_each [] _) _) with (@nil (call image)).
  apply app_nil_r.
Qed.

(** One round of the loop on a regular file that decodes. *)
Lemma process_entry_converts (input_dir output_dir output_format : string) (quality : Z)
    (n : string) (s s1 s2 : state W) (img0 : image) :
  answer W (os_path_isfile (posixpath.join input_dir n)) s = (true, s1) ->
  answer W (Image_open (posixpath.join input_dir n)) s1 = (inr img0, s2) ->
  trace W (process_entry input_dir output_dir output_format quality n) s
  = os_path_isfile (posixpath.join input_dir n)
      :: Image_open (posixpath.join input_dir n)
      :: trace W (convert_image (posixpath.join input_dir n) output_dir output_format
                    quality) s2.
Proof.
  intros Hf Ho.
  pose proof (process_entry_run W input_dir output_dir output_format quality n s) as H.
  cbv zeta in H. rewrite Hf, Ho in H. unfold trace at 1. now rewrite H.
Qed.

End EndToEnd.

(** C10. Every integer is accepted as [--quality] and reaches the webp
    encoder as it is: [parse_args] returns it, [main] hands it to the
    walker, the walker to every round of its loop, and a round that
    converts to webp issues the encode call with exactly that value.
    Every encode call of a run carries that value (webp) or no quality
    at all (png, jpeg).  Nothing compares it with a bound: the runs
    below are the same for every integer. *)
Theorem quality_not_validated {image : Type} (W : World image) (q : Z) :
  (forall i o f,
      argparse.option_like i = false ->
      argparse.option_like o = false ->
      argparse.option_like f = false ->
      argparse.parse_args [i; o; f; "--quality"; argparse.str_int q]
      = Some {| input_dir := i; output_dir := o; output_format := f; quality := q |})
  /\ (forall args s,
        quality args = q ->
        Forall (quality_as_given q) (trace W (main args) s))
  /\ (forall input_path output_path output_format s s1 s2 img rgb,
        is_webp output_format = true ->
        answer W (Image_open input_path) s = (inr img, s1) ->
        answer W (Image_convert img "RGB") s1 = (inr rgb, s2) ->
        In (Image_save rgb (final_output_path input_path output_path output_format)
              (Some "webp") (Some q))
           (trace W (convert_image input_path output_path output_format q) s))
  /\ (forall args s s1 s2 s3 names,
        quality args = q ->
        answer W (os_path_isdir (input_dir args)) s = (true, s1) ->
        answer W (os_path_exists (output_dir args)) s1 = (true, s2) ->
        answer W (os_listdir (input_dir args)) s2 = (inr names, s3) ->
        trace W (main args) s
        = os_path_isdir (input_dir args) :: os_path_exists (output_dir args)
            :: os_listdir (input_dir args)
            :: (trace W (for_each names
                           (process_entry (input_dir args) (output_dir args)
                              (Str.lower (output_format args)) q)) s3
                ++ [print msg_completed])%list)
  /\ (forall input_dir output_dir output_format n s s1 s2 s3 s4 img0 img rgb,
        is_webp output_format = true ->
        answer W (os_path_isfile (posixpath.join input_dir n)) s = (true, s1) ->
        answer W (Image_open (posixpath.join input_dir n)) s1 = (inr img0, s2) ->
        answer W (Image_open (posixpath.join input_dir n)) s2 = (inr img, s3) ->
        answer W (Image_convert img "RGB") s3 = (inr rgb, s4) ->
        trace W (process_entry input_dir output_dir output_format q n) s
        = [os_path_isfile (posixpath.join input_dir n);
           Image_open (posixpath.join input_dir n);
           Image_open (posixpath.join input_dir n);
           Image_convert img "RGB";
           Image_save rgb
             (final_output_path (posixpath.join input_dir n) output_dir output_format)
             (Some "webp") (Some q);
           print (save_line (posixpath.join input_dir n)
                    (final_output_path (posixpath.join input_dir n) output_dir
                       output_format)
                    (fst (answer W
                            (Image_save rgb
                               (final_output_path (posixpath.join input_dir n) output_dir
                                  output_format)
                               (Some "webp") (Some q)) s4)))])
  /\ (forall args n s s1 s2 s3 s4 s5 s6 s7 img0 img rgb,
        quality args = q ->
        is_webp (output_format args) = true ->
        answer W (os_path_isdir (input_dir args)) s = (true, s1) ->
        answer W (os_path_exists (output_dir args)) s1 = (true, s2) ->
        answer W (os_listdir (input_dir args)) s2 = (inr [n], s3) ->
        answer W (os_path_isfile (posixpath.join (input_dir args) n)) s3 = (true, s4) ->
        answer W (Image_open (posixpath.join (input_dir args) n)) s4 = (inr img0, s5) ->
        answer W (Image_open (posixpath.join (input_dir args) n)) s5 = (inr img, s6) ->
        answer W (Image_convert img "RGB") s6 = (inr rgb, s7) ->
        trace W (main args) s
        = [os_path_isdir (input_dir args); os_path_exists (output_dir args);
           os_listdir (input_dir args);
           os_path_isfile (posixpath.join (input_dir args) n);
           Image_open (posixpath.join (input_dir args) n);
           Image_open (posixpath.join (input_dir args) n);
           Image_convert img "RGB";
           Image_save rgb
             (final_output_path (posixpath.join (input_dir args) n) (output_dir args)
                (Str.lower (output_format args)))
             (Some "webp") (Some q);
           print (save_line (posixpath.join (input_dir args) n)
                    (final_output_path (posixpath.join (input_dir args) n)
                       (output_dir args) (Str.lower (output_format args)))
                    (fst (answer W
                            (Image_save rgb
                               (final_output_path (posixpath.join (input_dir args) n)
                                  (output_dir args) (Str.lower (output_format args)))
                               (Some "webp") (Some q)) s7)));
           print msg_completed]).
Proof.
  assert (Hround : forall input_dir output_dir output_format n s s1 s2 s3 s4 img0 img rgb,
             is_webp output_format = true ->
             answer W (os_path_isfile (posixpath.join input_dir n)) s = (true, s1) ->
             answer W (Image_open (posixpath.join input_dir n)) s1 = (inr img0, s2) ->
             answer W (Image_open (posixpath.join input_dir n)) s2 = (inr img, s3) ->
             answer W (Image_convert img "RGB") s3 = (inr rgb, s4) ->
             trace W (process_entry input_dir output_dir output_format q n) s
             = [os_path_isfile (posixpath.join input_dir n);
                Image_open (posixpath.join input_dir n);
                Image_open (posixpath.join input_dir n);
                Image_convert img "RGB";
                Image_save rgb
                  (final_output_path (posixpath.join input_dir n) output_dir output_format)
                  (Some "webp") (Some q);
                print (save_line (posixpath.join input_dir n)
                         (final_output_path (posixpath.join input_dir n) output_dir
                            output_format)
                         (fst (answer W
                                 (Image_save rgb
                                    (final_output_path (posixpath.join input_dir n)
                                       output_dir output_format)
                                    (Some "webp") (Some q)) s4)))]).
  { intros input_dir output_dir output_format n s s1 s2 s3 s4 img0 img rgb
      Hw Hf Ho0 Ho Hc.
    rewrite (process_entry_converts W input_dir output_dir output_format q n s s1 s2 img0
               Hf Ho0).
    now rewrite (convert_image_webp_trace W _ output_dir output_format q s2 s3 s4 img rgb
                   Hw Ho Hc). }
  split; [intros i o f; apply parse_args_quality|].
  split; [intros args s <-; apply main_quality|].
  split.
  { intros input_path output_path output_format s s1 s2 img rgb Hw Hopen Hconv.
    rewrite (convert_image_webp_trace W input_path output_path output_format q s s1 s2
               img rgb Hw Hopen Hconv).
    simpl. auto. }
  split.
  { intros args s s1 s2 s3 names <- Hdir Hex Hls.
    exact (proj1 (main_walk W args s s1 s2 s3 names Hdir Hex Hls)). }
  split; [exact Hround|].
  intros args n s s1 s2 s3 s4 s5 s6 s7 img0 img rgb <- Hw Hdir Hex Hls Hf Ho0 Ho Hc.
  assert (Hw' : is_webp (Str.lower (output_format args)) = true).
  { unfold is_webp in *. apply String.eqb_eq in Hw. now rewrite Hw. }
  rewrite (proj1 (main_walk W args s s1 s2 s3 [n] Hdir Hex Hls)).
  rewrite for_each_single.
  now rewrite (Hround (input_dir args) (output_dir args) (Str.lower (output_format args))
                 n s3 s4 s5 s6 s7 img0 img rgb Hw' Hf Ho0 Ho Hc).
Qed.

(** ** The concrete world *)

Section DiskFacts.

Import Disk.

Lemma disk_convert_mode (img : picture) (m : string) (d : fs) (img' : picture) (d' : fs) :
  answer world (Image_convert img m) d = (inr img', d') -> mode img' = m.
Proof. simpl. unfold do_convert. now intros [= <- _]. Qed.

(** A trace that cannot contain a given line: the lines differ from
    their first characters on. *)
Ltac prints_differ :=
  let H := fresh "H" in
  intros H; simpl in H;
  unfold msg_converted, msg_not_found, msg_error, msg_unsupported in H;
  repeat match goal with
         | H' : _ \/ _ |- _ => destruct H' as [H'|H']
         end;
  solve [discriminate H | contradiction].

Lemma append_assoc (a b c : string) : (a ++ b) ++ c = a ++ (b ++ c).
Proof. induction a as [|x a IH]; [reflexivity|]. now rewrite !append_cons, IH. Qed.

Lemma split_nonempty (s : string) : split s <> [].
Proof.
  induction s as [|c s IH]; simpl; [discriminate|].
  destruct (Ascii.eqb c posixpath.sep); [discriminate|].
  destruct (split s); [contradiction|discriminate].
Qed.

Lemma split_sep (a b : string) :
  split (a ++ String posixpath.sep b) = (split a ++ split b)%list.
Proof.
  induction a as [|c a IH].
  - reflexivity.
  - rewrite append_cons. simpl. destruct (Ascii.eqb c posixpath.sep).
    + now rewrite IH.
    + rewrite IH. pose proof (split_nonempty a) as Hne.
      destruct (split a); [contradiction|reflexivity].
Qed.

Lemma split_plain (s : string) : Str.contains posixpath.sep s = false -> split s = [s].
Proof.
  induction s as [|c s IH]; simpl; [reflexivity|].
  intros H. apply orb_false_iff in H as [Hc Hs].
  rewrite Hc, (IH Hs). reflexivity.
Qed.

Lemma endswith_sep (a : string) :
  Str.endswith posixpath.sep a = true -> exists a', a = a' ++ String posixpath.sep "".
Proof.
  induction a as [|c a IH]; [discriminate|].
  destruct a as [|c' a].
  - simpl. intros H. apply Ascii.eqb_eq in H as ->. now exists "".
  - intros H. destruct (IH H) as [a' Ha']. exists (String c a').
    rewrite append_cons. now rewrite <- Ha'.
Qed.

Lemma components_sep (a b : string) :
  components (a ++ String posixpath.sep b) = (components a ++ components b)%list.
Proof. unfold components. now rewrite split_sep, List.filter_app. Qed.

(** Below an existing directory, a plain file name is one more
    component. *)
Lemma components_join (a name : string) :
  Str.startswith posixpath.sep name = false ->
  Str.contains posixpath.sep name = false ->
  String.eqb name "" = false -> String.eqb name "." = false ->
  a <> "" ->
  components (posixpath.join a name) = (components a ++ [name])%list.
Proof.
  intros Hstart Hplain Hne Hdot Ha. unfold posixpath.join. rewrite Hstart.
  assert (Hname : components name = [name]).
  { unfold components. rewrite (split_plain _ Hplain). simpl. now rewrite Hne, Hdot. }
  destruct (String.eqb_spec a "") as [->|_]; [contradiction|]. simpl.
  destruct (Str.endswith posixpath.sep a) eqn:He.
  - apply endswith_sep in He as [a' ->].
    rewrite append_assoc. change (String posixpath.sep "" ++ name)
      with (String posixpath.sep name).
    rewrite !components_sep, Hname. change (components "") with (@nil string).
    now rewrite app_nil_r.
  - now rewrite components_sep, Hname.
Qed.

Lemma output_filename_plain (input_path output_format : string) :
  Str.contains posixpath.sep (Str.lower output_format) = false ->
  String.eqb (Str.lower output_format) "" = false ->
  let name := output_filename input_path output_format in
  Str.contains posixpath.sep name = false
  /\ String.eqb name "" = false /\ String.eqb name "." = false.
Proof.
  intros Hfmt Hne name. unfold name, output_filename.
  pose proof (splitext_root_no_sep _ (basename_no_sep input_path)) as Hstem.
  set (stem := fst (posixpath.splitext (posixpath.basename input_path))) in *.
  destruct (Str.lower output_format) as [|x ext]; [discriminate|].
  clearbody stem. split; [|split].
  - induction stem as [|c stem IH].
    + exact Hfmt.
    + rewrite append_cons. simpl in *. apply orb_false_iff in Hstem as [-> Hs].
      now apply IH.
  - destruct stem; reflexivity.
  - destruct stem as [|c [|c' stem]]; [reflexivity| |].
    + cbn. apply andb_false_r.
    + cbn. apply andb_false_iff. right. reflexivity.
Qed.

(** With the output directory in place, [save] on the converter's
    path does not fail for want of a directory. *)
Lemma do_save_finds_directory (d : fs) (img : picture) (input_path output_path
    output_format : string) (format : option string) (quality : option Z) (msg : string) :
  path_isdir d output_path = true ->
  supported output_format = true ->
  fst (do_save img (final_output_path input_path output_path output_format)
         format quality d) <> inl (FileNotFoundError msg).
Proof.
  intros Hdir Hsup.
  assert (Hfmt : Str.contains posixpath.sep (Str.lower output_format) = false
                 /\ String.eqb (Str.lower output_format) "" = false).
  { unfold supported, is_webp, is_png_jpeg, str_in in Hsup. simpl in Hsup.
    repeat (apply orb_true_iff in Hsup as [Hsup|Hsup]);
      try discriminate; apply String.eqb_eq in Hsup; rewrite Hsup; split; reflexivity. }
  destruct Hfmt as [Hfmt Hne].
  destruct (output_filename_plain input_path output_format Hfmt Hne) as (Hp & Hn & Hdot).
  assert (Hout : output_path <> "").
  { intros ->. discriminate Hdir. }
  pose proof (components_join output_path _ (output_filename_relative input_path output_format)
                Hp Hn Hdot Hout) as Hcs.
  fold (final_output_path input_path output_path output_format) in Hcs.
  unfold do_save. rewrite Hcs.
  destruct (match format with Some f => upper_format f | None => format_of_extension _ end);
    [|simpl; intros Hc; discriminate Hc].
  rewrite List.rev_app_distr. simpl. rewrite List.rev_involutive.
  assert (Hparent : match components output_path with
                    | [] => Some Dir
                    | _ :: _ => d !! components output_path
                    end = Some Dir).
  { unfold path_isdir, lookup_path in Hdir.
    destruct (String.eqb output_path ""); [discriminate|].
    destruct (components output_path) as [|x cs]; [reflexivity|].
    destruct (d !! (x :: cs)) as [[|c]|]; try discriminate. reflexivity. }
  rewrite Hparent.
  destruct (d !! (components output_path ++ [_])%list) as [[|c]|]; simpl;
    try (intros Hc; discriminate Hc);
    destruct (writes_mode _ _); simpl; intros Hc; discriminate Hc.
Qed.

(** On the concrete world, with the output directory in place, the
    file-not-found line means that the source is missing. *)
Lemma not_found_means_missing (d : fs) (input_path output_path output_format : string)
    (quality : Z) :
  path_isdir d output_path = true ->
  In (print (msg_not_found input_path))
     (trace world (convert_image input_path output_path output_format quality) d) ->
  lookup_path d input_path = None.
Proof.
  intros Hdir.
  assert (Hsave : forall img format q msg d',
             supported output_format = true ->
             do_save img (final_output_path input_path output_path output_format) format q d
             <> (inl (FileNotFoundError msg), d')).
  { intros img format q msg d' Hsup Hs.
    apply (do_save_finds_directory d img input_path output_path output_format
             format q msg Hdir Hsup).
    now rewrite Hs. }
  unfold trace, convert_image, convert_image_try. unfold_py.
  unfold supported, is_webp, is_png_jpeg in Hsave.
  destruct (String.eqb (Str.lower output_format) "webp") eqn:Hw;
    [|destruct (str_in (Str.lower output_format) ["png"; "jpeg"; "jpg"]) eqn:Hp];
    simpl; unfold do_open at 1;
    (destruct (lookup_path d input_path) as [[|[data|f q img]]|]; [| | |reflexivity]);
    simpl; try prints_differ.
  - destruct (do_save _ _ (Some "webp") (Some quality) d) as [[[msg|msg]|[]] d'] eqn:Hs;
      simpl; try prints_differ.
    now apply Hsave in Hs.
  - destruct (do_save _ _ None None d) as [[[msg|msg]|[]] d'] eqn:Hs;
      simpl; try prints_differ.
    now apply Hsave in Hs.
Qed.

Lemma rev_parent_ne {A} (x : A) (rparent : list A) :
  List.rev rparent <> List.rev (x :: rparent).
Proof.
  intros H. apply (f_equal (@List.length A)) in H.
  simpl in H. rewrite length_app in H. simpl in H. lia.
Qed.

Lemma do_save_again (img : picture) (fp : string) (format : option string)
    (quality : option Z) (d d' : fs) :
  do_save img fp format quality d = (inr tt, d') ->
  do_save img fp format quality d' = (inr tt, d')
  /\ exists f, d' = <[components fp := File (Encoded f quality img)]> d.
Proof.
  unfold do_save.
  destruct (match format with Some f => upper_format f | None => format_of_extension fp end)
    as [f|]; [|discriminate].
  destruct (List.rev (components fp)) as [|x rparent] eqn:Hrev; [discriminate|].
  assert (Hcs : components fp = List.rev (x :: rparent))
    by (rewrite <- Hrev; symmetry; apply rev_involutive).
  destruct (List.rev rparent) as [|y parent] eqn:Hpar.
  - destruct (d !! components fp) as [[|c]|] eqn:Hold; [discriminate| |];
      (destruct (writes_mode f (mode img)); [|discriminate]);
      intros [= <-]; (split; [|eauto]);
      rewrite lookup_insert_eq, insert_insert_eq; reflexivity.
  - destruct (d !! (y :: parent)) as [[|c]|] eqn:Hp; try discriminate.
    assert (Hne : components fp <> y :: parent).
    { rewrite Hcs, <- Hpar. intros H. symmetry in H. now apply rev_parent_ne in H. }
    destruct (d !! components fp) as [[|c]|] eqn:Hold; [discriminate| |];
      (destruct (writes_mode f (mode img)); [|discriminate]);
      intros [= <-]; (split; [|eauto]);
      rewrite lookup_insert_ne, Hp, lookup_insert_eq, insert_insert_eq by exact Hne;
      reflexivity.
Qed.

Lemma do_open_after_save (input : string) (d : fs) (cs : list string)
    (img img' : picture) (f : string) (q : option Z) :
  do_open input d = inr img ->
  do_open input (<[cs := File (Encoded f q img')]> d) = inr img
  \/ do_open input (<[cs := File (Encoded f q img')]> d) = inr img'.
Proof.
  unfold do_open, lookup_path.
  destruct (String.eqb input ""); [discriminate|].
  destruct (components input) as [|x ci]; [discriminate|].
  rewrite lookup_insert. case_decide; [right; reflexivity|].
  intros Hopen. left. exact Hopen.
Qed.

(** C9. Running the conversion again.  After a conversion that
    succeeded, the same conversion succeeds again, prints the same line
    and leaves the tree exactly as it was: the output file is
    overwritten in place, with the same format and picture, and no
    other file appears.  The converter never tests whether the
    destination exists. *)
Theorem convert_image_twice (d : fs) (input_path output_path output_format : string)
    (quality : Z) :
  let conv := convert_image input_path output_path output_format quality in
  let out := final_output_path input_path output_path output_format in
  let d1 := final world conv d in
  In (print (msg_converted input_path out)) (trace world conv d) ->
  value world conv d1 = inr tt
  /\ final world conv d1 = d1
  /\ stdout (trace world conv d1) = [msg_converted input_path out]
  /\ forallb converter_call (trace world conv d1) = true
  /\ exists f img,
       d1 !! components out
       = Some (File (Encoded f (if is_webp output_format then Some quality else None) img)).
Proof.
  intros conv out d1 Hok.
  split; [apply convert_image_returns|].
  cut (final world conv d1 = d1
       /\ stdout (trace world conv d1) = [msg_converted input_path out]
       /\ exists f img,
            d1 !! components out
            = Some (File (Encoded f (if is_webp output_format then Some quality else None) img))).
  { intros (H1 & H2 & H3). repeat split; try assumption. apply convert_image_calls. }
  revert Hok. unfold d1, conv, trace, final, convert_image, convert_image_try, is_webp.
  unfold_py. fold out.
  destruct (String.eqb (Str.lower output_format) "webp") eqn:Hw;
    [|destruct (str_in (Str.lower output_format) ["png"; "jpeg"; "jpg"]) eqn:Hp];
    simpl;
    (destruct (do_open input_path d) as [e|img] eqn:Ho;
     [destruct e; simpl; prints_differ|]); simpl.
  - destruct (do_save _ out (Some "webp") (Some quality) d) as [[e|[]] d'] eqn:Hs; simpl.
    { destruct e; simpl; prints_differ. }
    intros _.
    destruct (do_save_again _ _ _ _ _ _ Hs) as [Hs' [f Hd']].
    split; [|split].
    + destruct (do_open_after_save input_path d (components out) img
                  {| mode := "RGB"; pixels := pixels img |} f (Some quality) Ho) as [Ho'|Ho'];
        rewrite <- Hd' in Ho'; rewrite Ho'; simpl; rewrite Hs'; reflexivity.
    + destruct (do_open_after_save input_path d (components out) img
                  {| mode := "RGB"; pixels := pixels img |} f (Some quality) Ho) as [Ho'|Ho'];
        rewrite <- Hd' in Ho'; rewrite Ho'; simpl; rewrite Hs'; reflexivity.
    + rewrite Hd', lookup_insert_eq. eauto.
  - destruct (do_save img out None None d) as [[e|[]] d'] eqn:Hs; simpl.
    { destruct e; simpl; prints_differ. }
    intros _.
    destruct (do_save_again _ _ _ _ _ _ Hs) as [Hs' [f Hd']].
    split; [|split].
    + destruct (do_open_after_save input_path d (components out) img
                  img f None Ho) as [Ho'|Ho'];
        rewrite <- Hd' in Ho'; rewrite Ho'; simpl; rewrite Hs'; reflexivity.
    + destruct (do_open_after_save input_path d (components out) img
                  img f None Ho) as [Ho'|Ho'];
        rewrite <- Hd' in Ho'; rewrite Ho'; simpl; rewrite Hs'; reflexivity.
    + rewrite Hd', lookup_insert_eq. eauto.
  - prints_differ.
Qed.

End DiskFacts.

(** Failures of one conversion, by the class of the exception.
    [convert_image] always returns normally.  A missing source file ([Image.open] raises
    [FileNotFoundError]) gives the file-not-found line, which differs
    from every generic line.  Whenever the body of the [try] raises,
    after the calls made so far exactly one line is printed: for any
    exception other than a file-not-found error it is the generic line,
    which ends with the cause [str(e)].  One round of the walker's loop
    returns normally too, so the loop visits every listed name.  On
    the concrete world, with the output directory in place as the
    converter requires, the file-not-found line is printed only when
    the source is missing. *)
Theorem convert_image_failures {image : Type} (W : World image)
    (input_path output_path output_format : string) (quality : Z) (s : state W) :
  value W (convert_image input_path output_path output_format quality) s = inr tt
  /\ (forall msg s1,
        answer W (Image_open input_path) s = (inl (FileNotFoundError msg), s1) ->
        trace W (convert_image input_path output_path output_format quality) s
        = [Image_open input_path; print (msg_not_found input_path)])
  /\ (forall e, msg_not_found input_path <> msg_error input_path e)
  /\ (forall e s1 t,
        run W (convert_image_try input_path output_path output_format quality) s
        = (inl e, s1, t) ->
        trace W (convert_image input_path output_path output_format quality) s
        = (t ++ [print (failure_line input_path e)])%list)
  /\ (forall msg,
        failure_line input_path (OtherException msg)
        = "An error occurred while processing '" ++ input_path ++ "': " ++ msg)
  /\ (forall input_dir filename,
        value W (process_entry input_dir output_path output_format quality filename) s
        = inr tt)
  /\ (forall input_dir names,
        value W (for_each names
                   (process_entry input_dir output_path output_format quality)) s
        = inr tt
        /\ isfile_paths
             (trace W (for_each names
                         (process_entry input_dir output_path output_format quality)) s)
           = map (posixpath.join input_dir) names)
  /\ (forall d,
        Disk.path_isdir d output_path = true ->
        In (print (msg_not_found input_path))
           (trace Disk.world
              (convert_image input_path output_path output_format quality) d) ->
        Disk.lookup_path d input_path = None).
Proof.
  split; [apply convert_image_returns|].
  split.
  { intros msg s1 Hopen.
    unfold trace, convert_image, convert_image_try. unfold_py.
    simpl. rewrite Hopen. simpl. answers; reflexivity. }
  split; [intros e; unfold msg_not_found, msg_error; discriminate|].
  split.
  { intros e s1 t Hrun.
    unfold trace, convert_image, try_except. rewrite run_prog_bind, Hrun.
    destruct e; unfold say; simpl; answers; reflexivity. }
  split; [reflexivity|].
  split; [intros; apply process_entry_returns|].
  split.
  { intros input_dir names.
    destruct (for_each_entries W input_dir output_path output_format quality names s)
      as (Hv & Hp & _).
    now split. }
  intros d. apply not_found_means_missing.
Qed.

(** ** An encode failure that is a file-not-found error *)

Section MissingOutputDirectory.

Import Disk.


End MissingOutputDirectory.

(** ** The properties at work on the sample tree *)

Section Witnesses.

Import Disk.

Lemma convert_image_output_path_witness :
  In (Image_save Sample.rgb_photo "out/photo.webp" (Some "webp") (Some 50))
     (trace world (convert_image "in/photo.PNG" "out" "WebP" 50)
        (<[ ["in"; "photo.PNG"] := File (Encoded "PNG" None Sample.photo) ]> Sample.disk))
  /\ "out/photo.webp" = final_output_path "in/photo.PNG" "out" "WebP".
Proof.
  assert (H : In (Image_save Sample.rgb_photo "out/photo.webp" (Some "webp") (Some 50))
                (trace world (convert_image "in/photo.PNG" "out" "WebP" 50)
                   (<[ ["in"; "photo.PNG"] := File (Encoded "PNG" None Sample.photo) ]>
                      Sample.disk)))
    by (vm_compute; tauto).
  split; [exact H|].
  exact (proj2 (proj2 (convert_image_output_path world "in/photo.PNG" "out" "WebP"))
           50 _ _ _ _ _ H).
Defined.

Lemma convert_image_webp_witness :
  is_webp "WebP" = true
  /\ answer world (Image_open "in/photo.png") Sample.disk = (inr Sample.photo, Sample.disk)
  /\ mode Sample.rgb_photo = "RGB"
  /\ trace world (convert_image "in/photo.png" "out" "WebP" 50) Sample.disk
     = [Image_open "in/photo.png";
        Image_convert Sample.photo "RGB";
        Image_save Sample.rgb_photo "out/photo.webp" (Some "webp") (Some 50);
        print "Converted 'in/photo.png' to 'out/photo.webp'"].
Proof.
  split; [reflexivity|]. split; [reflexivity|].
  exact (convert_image_webp world mode disk_convert_mode
           "in/photo.png" "out" "WebP" 50 Sample.disk Sample.disk Sample.photo
           eq_refl eq_refl).
Defined.

Lemma convert_image_png_jpeg_witness :
  is_png_jpeg "PNG" = true
  /\ convert_image (image := picture) "in/logo.bmp" "out" "PNG" 1
     = convert_image "in/logo.bmp" "out" "PNG" 99
  /\ trace world (convert_image "in/logo.bmp" "out" "PNG" 99) Sample.disk
     = [Image_open "in/logo.bmp";
        Image_save Sample.logo "out/logo.png" None None;
        print "Converted 'in/logo.bmp' to 'out/logo.png'"].
Proof.
  split; [reflexivity|].
  pose proof (convert_image_png_jpeg world "in/logo.bmp" "out" "PNG" 99 eq_refl) as [H1 H2].
  split; [exact (H1 1)|].
  exact (H2 Sample.disk Sample.disk Sample.logo eq_refl).
Defined.

Lemma convert_image_unsupported_witness :
  supported "gif" = false
  /\ value world (convert_image "in/photo.png" "out" "gif" 80) Sample.disk = inr tt
  /\ trace world (convert_image "in/photo.png" "out" "gif" 80) Sample.disk
     = [Image_open "in/photo.png"; print "Unsupported output format: gif"].
Proof.
  split; [reflexivity|].
  pose proof (convert_image_unsupported world "in/photo.png" "out" "gif" 80 Sample.disk
                eq_refl) as (H1 & _ & H3 & _).
  split; [exact H1|].
  exact (H3 Sample.photo Sample.disk eq_refl).
Defined.

(** C4 as stated fails when the source does not decode: the text file
    with an unsupported format is reported as a decode failure, not as
    an unsupported format. *)
Lemma convert_image_unsupported_counterexample :
  supported "gif" = false
  /\ path_isfile Sample.disk "in/notes.txt" = true
  /\ stdout (trace world (convert_image "in/notes.txt" "out" "gif" 80) Sample.disk)
     = ["An error occurred while processing 'in/notes.txt': "
        ++ "cannot identify image file 'in/notes.txt'"]
  /\ ~ In (print (msg_unsupported "gif"))
          (trace world (convert_image "in/notes.txt" "out" "gif" 80) Sample.disk).
Proof.
  split; [reflexivity|]. split; [reflexivity|]. split; [reflexivity|].
  vm_compute. intros [H|[H|[]]]; discriminate H.
Qed.

Lemma convert_image_failures_witness :
  answer world (Image_open "in/gone.png") Sample.disk
  = (inl (no_such "in/gone.png"), Sample.disk)
  /\ trace world (convert_image "in/gone.png" "out" "webp" 80) Sample.disk
     = [Image_open "in/gone.png"; print "Error: Input file 'in/gone.png' not found."]
  /\ run world (convert_image_try "in/photo.png" "out" "jpg" 80) Sample.disk
     = (inl (OtherException "cannot write mode RGBA as JPEG"), Sample.disk,
        [Image_open "in/photo.png"; Image_save Sample.photo "out/photo.jpg" None None])
  /\ trace world (convert_image "in/photo.png" "out" "jpg" 80) Sample.disk
     = [Image_open "in/photo.png"; Image_save Sample.photo "out/photo.jpg" None None;
        print "An error occurred while processing 'in/photo.png': cannot write mode RGBA as JPEG"].
Proof.
  split; [reflexivity|].
  pose proof (convert_image_failures world "in/gone.png" "out" "webp" 80 Sample.disk)
    as (_ & H2 & _).
  split; [exact (H2 _ _ eq_refl)|].
  split; [reflexivity|].
  pose proof (convert_image_failures world "in/photo.png" "out" "jpg" 80 Sample.disk)
    as (_ & _ & _ & H4 & _).
  exact (H4 _ _ _ eq_refl).
Defined.

Lemma main_missing_input_dir_witness :
  answer world (os_path_isdir "in/notes.txt") Sample.disk = (false, Sample.disk)
  /\ run world (main {| input_dir := "in/notes.txt"; output_dir := "fresh/deep";
                        output_format := "webp"; quality := 80 |}) Sample.disk
     = (inr tt, Sample.disk,
        [os_path_isdir "in/notes.txt";
         print "Error: Input directory 'in/notes.txt' does not exist."])
  /\ exit_status (value world (main {| input_dir := "in/notes.txt"; output_dir := "fresh/deep";
                                       output_format := "webp"; quality := 80 |}) Sample.disk)
     = 0.
Proof.
  split; [reflexivity|].
  pose proof (main_missing_input_dir world
                {| input_dir := "in/notes.txt"; output_dir := "fresh/deep";
                   output_format := "webp"; quality := 80 |}
                Sample.disk Sample.disk eq_refl) as (H1 & H2 & _).
  split; [exact H1|exact H2].
Defined.

Lemma process_directory_creates_output_dir_witness :
  answer world (os_path_exists "fresh/deep") Sample.disk = (false, Sample.disk)
  /\ trace world (process_directory "in" "fresh/deep" "webp" 50) Sample.disk
     = os_path_exists "fresh/deep" :: os_makedirs "fresh/deep"
         :: print "Created output directory: fresh/deep"
         :: trace world (enumerate "in" "fresh/deep" "webp" 50)
              (<[ ["fresh"; "deep"] := Dir ]> (<[ ["fresh"] := Dir ]> Sample.disk)).
Proof.
  split; [reflexivity|].
  exact (process_directory_creates_output_dir world "in" "fresh/deep" "webp" 50
           Sample.disk Sample.disk eq_refl).
Defined.

(** C7 as stated fails when the directory cannot be created: below a
    regular file [os.makedirs] raises, no line is printed, nothing is
    listed, and the exception leaves the walker. *)
Lemma process_directory_creates_output_dir_counterexample :
  path_exists Sample.disk "in/notes.txt/out" = false
  /\ run world (process_directory "in" "in/notes.txt/out" "webp" 50) Sample.disk
     = (inl (not_a_directory "in/notes.txt/out"), Sample.disk,
        [os_path_exists "in/notes.txt/out"; os_makedirs "in/notes.txt/out"])
  /\ ~ In (print (msg_created "in/notes.txt/out"))
          (trace world (process_directory "in" "in/notes.txt/out" "webp" 50) Sample.disk)
  /\ path_exists
       (final world (process_directory "in" "in/notes.txt/out" "webp" 50) Sample.disk)
       "in/notes.txt/out" = false.
Proof.
  split; [reflexivity|]. split; [reflexivity|]. split; [|reflexivity].
  vm_compute. intros [H|[H|[]]]; discriminate H.
Qed.


Lemma convert_image_twice_witness :
  In (print (msg_converted "in/photo.png" "out/photo.webp"))
     (trace world (convert_image "in/photo.png" "out" "webp" 50) Sample.disk)
  /\ final world (convert_image "in/photo.png" "out" "webp" 50)
       (<[ ["out"; "photo.webp"] := File (Encoded "WEBP" (Some 50) Sample.rgb_photo) ]> Sample.disk)
     = <[ ["out"; "photo.webp"] := File (Encoded "WEBP" (Some 50) Sample.rgb_photo) ]> Sample.disk
  /\ stdout (trace world (convert_image "in/photo.png" "out" "webp" 50)
               (<[ ["out"; "photo.webp"] := File (Encoded "WEBP" (Some 50) Sample.rgb_photo) ]>
                  Sample.disk))
     = ["Converted 'in/photo.png' to 'out/photo.webp'"].
Proof.
  assert (H : In (print (msg_converted "in/photo.png" "out/photo.webp"))
                (trace world (convert_image "in/photo.png" "out" "webp" 50) Sample.disk))
    by (vm_compute; tauto).
  split; [exact H|].
  pose proof (convert_image_twice Sample.disk "in/photo.png" "out" "webp" 50 H)
    as (_ & H2 & H3 & _).
  split; [exact H2|exact H3].
Defined.

Lemma quality_not_validated_witness :
  argparse.parse_args ["in"; "out"; "webp"; "--quality"; "-5"]
  = Some {| input_dir := "in"; output_dir := "out"; output_format := "webp";
            quality := -5 |}
  /\ In (Image_save Sample.rgb_photo "out/photo.webp" (Some "webp") (Some (-5)))
        (trace world (convert_image "in/photo.png" "out" "webp" (-5)) Sample.disk)
  /\ Forall (quality_as_given 1000)
       (trace world (main {| input_dir := "in"; output_dir := "out";
                             output_format := "webp"; quality := 1000 |}) Sample.disk)
  /\ trace world (main {| input_dir := "in/sub"; output_dir := "out";
                          output_format := "WebP"; quality := -5 |}) Sample.disk
     = [os_path_isdir "in/sub"; os_path_exists "out"; os_listdir "in/sub";
        os_path_isfile "in/sub/x.png"; Image_open "in/sub/x.png";
        Image_open "in/sub/x.png"; Image_convert Sample.photo "RGB";
        Image_save Sample.rgb_photo "out/x.webp" (Some "webp") (Some (-5));
        print "Converted 'in/sub/x.png' to 'out/x.webp'";
        print "Image conversion process completed."].
Proof.
  pose proof (quality_not_validated world (-5)) as (H1 & _ & H3 & _ & _ & H6).
  split; [exact (H1 "in" "out" "webp" eq_refl eq_refl eq_refl)|].
  split; [exact (H3 "in/photo.png" "out" "webp" Sample.disk Sample.disk Sample.disk
                   Sample.photo Sample.rgb_photo eq_refl eq_refl eq_refl)|].
  split.
  - pose proof (quality_not_validated world 1000) as (_ & H2 & _).
    exact (H2 {| input_dir := "in"; output_dir := "out";
                 output_format := "webp"; quality := 1000 |} Sample.disk eq_refl).
  - exact (H6 {| input_dir := "in/sub"; output_dir := "out";
                 output_format := "WebP"; quality := -5 |} "x.png"
              Sample.disk Sample.disk Sample.disk Sample.disk Sample.disk Sample.disk
              Sample.disk Sample.disk Sample.photo Sample.photo Sample.rgb_photo
              eq_refl eq_refl eq_refl eq_refl eq_refl eq_refl eq_refl eq_refl eq_refl).
Defined.

End Witnesses.

(** * Further properties *)

(** ** The converter, call by call *)

Section ConverterShape.

Context {image : Type} (W : World image).

Lemma convert_image_prints_once (input_path output_path output_format : string)
    (quality : Z) (s : state W) :
  length (stdout (trace W (convert_image input_path output_path output_format quality) s))
  = 1%nat.
Proof.
  unfold trace, convert_image, convert_image_try. unfold_py.
  destruct (String.eqb (Str.lower output_format) "webp");
    [|destruct (str_in (Str.lower output_format) ["png"; "jpeg"; "jpg"])];
    answers; reflexivity.
Qed.

(** What [convert_image] can print. *)
Lemma convert_image_prints (input_path output_path output_format : string)
    (quality : Z) (s : state W) (line : string) :
  In (print line) (trace W (convert_image input_path output_path output_format quality) s) ->
  line = msg_unsupported output_format
  \/ line = msg_converted input_path
              (final_output_path input_path output_path output_format)
  \/ line = msg_not_found input_path
  \/ exists e, line = msg_error input_path e.
Proof.
  unfold trace, convert_image, convert_image_try. unfold_py.
  destruct (String.eqb (Str.lower output_format) "webp");
    [|destruct (str_in (Str.lower output_format) ["png"; "jpeg"; "jpg"])];
    answers; intros H;
    repeat match goal with
           | H' : _ \/ _ |- _ => destruct H' as [H'|H']
           | H' : False |- _ => destruct H'
           end;
    try discriminate H; injection H as <-; eauto 6.
Qed.

Lemma convert_image_opens_first (input_path output_path output_format : string)
    (quality : Z) (s : state W) :
  exists rest,
    trace W (convert_image input_path output_path output_format quality) s
    = Image_open input_path :: rest.
Proof.
  unfold trace, convert_image, convert_image_try. unfold_py. simpl.
  destruct (answer W (Image_open input_path) s) as [r s1].
  repeat match goal with
         | |- context [run W ?p ?st] => destruct (run W p st) as [[? ?] ?]
         end.
  simpl. eauto.
Qed.

Lemma convert_image_open_fails (input_path output_path output_format : string)
    (quality : Z) (s s1 : state W) (e : exn) :
  answer W (Image_open input_path) s = (inl e, s1) ->
  trace W (convert_image input_path output_path output_format quality) s
  = [Image_open input_path; print (failure_line input_path e)].
Proof.
  intros Hopen.
  unfold trace, convert_image, convert_image_try. unfold_py.
  simpl. rewrite Hopen. simpl.
  destruct e; answers; reflexivity.
Qed.

(** X1. One status line per conversion: whatever the world answers,
    [convert_image] prints exactly one line. *)
Theorem convert_image_one_line (input_path output_path output_format : string)
    (quality : Z) (s : state W) :
  length (stdout (trace W (convert_image input_path output_path output_format quality) s))
  = 1%nat
  /\ exists line,
       stdout (trace W (convert_image input_path output_path output_format quality) s)
       = [line]
       /\ (line = msg_unsupported output_format
           \/ line = msg_converted input_path
                       (final_output_path input_path output_path output_format)
           \/ line = msg_not_found input_path
           \/ exists e, line = msg_error input_path e).
Proof.
  pose proof (convert_image_prints_once input_path output_path output_format quality s) as Hn.
  split; [exact Hn|].
  destruct (stdout (trace W (convert_image input_path output_path output_format quality) s))
    as [|line [|line' rest]] eqn:Hout; try discriminate Hn.
  exists line. split; [reflexivity|].
  apply (convert_image_prints input_path output_path output_format quality s).
  assert (Hin : forall (t : list (call image)) l, In l (stdout t) -> In (print l) t).
  { induction t as [|c t IH]; simpl; [tauto|].
    intros l. destruct c; simpl; try (intros Hl; right; now apply IH).
    intros [->|Hl]; [now left|right; now apply IH]. }
  apply Hin. rewrite Hout. now left.
Qed.

(** X2. The shape of a conversion: the first call decodes the source;
    at most one encode call follows, none for an unsupported format; a
    convert call occurs only for webp and only to RGB; every call to
    the outside is a decode, a convert, an encode or a print, so the
    converter never tests a path ([exists], [isfile], [isdir]), lists
    a directory or creates one.  (The path it writes to is computed by
    the pure functions [basename], [splitext] and [join].) *)
Theorem convert_image_call_shape (input_path output_path output_format : string)
    (quality : Z) (s : state W) :
  hd_error (trace W (convert_image input_path output_path output_format quality) s)
  = Some (Image_open input_path)
  /\ (save_count (trace W (convert_image input_path output_path output_format quality) s)
      <= 1)%nat
  /\ (supported output_format = false ->
      save_count (trace W (convert_image input_path output_path output_format quality) s)
      = 0%nat)
  /\ (forall img m,
        In (Image_convert img m)
           (trace W (convert_image input_path output_path output_format quality) s) ->
        is_webp output_format = true /\ m = "RGB")
  /\ forallb converter_call
       (trace W (convert_image input_path output_path output_format quality) s) = true.
Proof.
  unfold supported, is_webp, is_png_jpeg.
  unfold trace, convert_image, convert_image_try. unfold_py.
  destruct (String.eqb (Str.lower output_format) "webp");
    [|destruct (str_in (Str.lower output_format) ["png"; "jpeg"; "jpg"])];
    answers;
    (split; [reflexivity|]);
    (split; [simpl; lia|]);
    (split; [intros Hs; first [discriminate Hs|reflexivity]|]);
    (split; [|reflexivity]);
    intros img' m' Hin; simpl in Hin;
    repeat match goal with
           | H' : _ \/ _ |- _ => destruct H' as [H'|H']
           | H' : False |- _ => destruct H'
           end;
    try discriminate Hin; now injection Hin as _ <-.
Qed.

End ConverterShape.

(** ** The walker, entry by entry *)

Section WalkerShape.

Context {image : Type} (W : World image).

Lemma stdout_app (t1 t2 : list (call image)) :
  stdout (t1 ++ t2) = (stdout t1 ++ stdout t2)%list.
Proof.
  induction t1 as [|c t1 IH]; [reflexivity|].
  destruct c; simpl; rewrite ?IH; reflexivity.
Qed.

Lemma process_entry_prints (input_dir output_dir output_format : string) (quality : Z)
    (filename : string) (s : state W) :
  length (stdout (trace W (process_entry input_dir output_dir output_format quality
                             filename) s))
  = if fst (answer W (os_path_isfile (posixpath.join input_dir filename)) s)
    then 1%nat else 0%nat.
Proof.
  pose proof (process_entry_run W input_dir output_dir output_format quality filename s) as H.
  cbv zeta in H. unfold trace.
  destruct (answer W (os_path_isfile _) s) as [[|] s1]; cbn [fst].
  - destruct (answer W (Image_open _) s1) as [[e|img] s2]; rewrite H; [reflexivity|].
    cbn [snd stdout]. apply convert_image_prints_once.
  - now rewrite H.
Qed.

(** Lifting a property of calls from one conversion to the loop. *)
Lemma for_each_Forall (P : call image -> Prop)
    (input_dir output_dir output_format : string) (quality : Z)
    (names : list string) (s : state W) :
  (forall n, In n names -> P (os_path_isfile (posixpath.join input_dir n))) ->
  (forall n, In n names -> P (Image_open (posixpath.join input_dir n))) ->
  (forall n, In n names -> P (print (msg_skipping (posixpath.join input_dir n)))) ->
  (forall n s', In n names ->
                Forall P (trace W (convert_image (posixpath.join input_dir n) output_dir
                                     output_format quality) s')) ->
  Forall P (trace W (for_each names
                       (process_entry input_dir output_dir output_format quality)) s).
Proof.
  revert s. induction names as [|n names IH]; intros s Hf Ho Hs Hc; [constructor|].
  pose proof (for_each_cons W input_dir output_dir output_format quality n names s) as H.
  cbv zeta in H. unfold trace at 1. rewrite H. cbn [snd].
  apply Forall_app. split.
  - pose proof (process_entry_run W input_dir output_dir output_format quality n s) as He.
    cbv zeta in He. unfold trace.
    destruct (answer W (os_path_isfile _) s) as [[|] s1].
    + destruct (answer W (Image_open _) s1) as [[e|img] s2]; rewrite He; cbn [snd].
      * repeat constructor; [apply Hf|apply Ho|apply Hs]; now left.
      * constructor; [apply Hf; now left|]. constructor; [apply Ho; now left|].
        apply Hc. now left.
    + rewrite He. repeat constructor. apply Hf. now left.
  - apply IH; intros; [apply Hf|apply Ho|apply Hs|apply Hc]; now right.
Qed.

(** X3. Status lines of the loop: one round prints one line when the
    entry is a regular file and none otherwise, so the loop prints at
    most one line per listed name. *)
Theorem process_entry_lines (input_dir output_dir output_format : string) (quality : Z) :
  (forall filename s,
      length (stdout (trace W (process_entry input_dir output_dir output_format quality
                                 filename) s))
      = if fst (answer W (os_path_isfile (posixpath.join input_dir filename)) s)
        then 1%nat else 0%nat)
  /\ (forall names s,
        (length (stdout (trace W (for_each names
                                    (process_entry input_dir output_dir output_format
                                       quality)) s))
         <= length names)%nat).
Proof.
  split; [intros; apply process_entry_prints|].
  intros names. induction names as [|n names IH]; intros s; [simpl; lia|].
  pose proof (for_each_cons W input_dir output_dir output_format quality n names s) as H.
  cbv zeta in H. unfold trace at 1. rewrite H. cbn [snd].
  rewrite stdout_app, length_app.
  pose proof (process_entry_prints input_dir output_dir output_format quality n s) as Hn.
  unfold trace in Hn at 1. 
  specialize (IH (final W (process_entry input_dir output_dir output_format quality n) s)).
  unfold trace in *. 
  change (length (n :: names)) with (S (length names)).
  destruct (fst (answer W (os_path_isfile (posixpath.join input_dir n)) s)); lia.
Qed.

Lemma supported_plain (output_format : string) :
  supported output_format = true ->
  Str.contains posixpath.sep (Str.lower output_format) = false
  /\ String.eqb (Str.lower output_format) "" = false.
Proof.
  unfold supported, is_webp, is_png_jpeg, str_in. simpl. intros Hsup.
  repeat (apply orb_true_iff in Hsup as [Hsup|Hsup]);
    try discriminate; apply String.eqb_eq in Hsup; rewrite Hsup; split; reflexivity.
Qed.

(** X4. Where the walker writes: every encode call of the loop goes to
    the converter's path for one of the listed names, a plain file
    name joined to the output directory.  Nothing is written into a
    subdirectory of the output directory or outside it. *)
Theorem walker_writes_into_output_dir (input_dir output_dir output_format : string)
    (quality : Z) (names : list string) (s : state W)
    (img : image) (fp : string) (format : option string) (q : option Z) :
  In (Image_save img fp format q)
     (trace W (for_each names
                 (process_entry input_dir output_dir output_format quality)) s) ->
  exists n,
    In n names
    /\ fp = posixpath.join output_dir
              (output_filename (posixpath.join input_dir n) output_format)
    /\ Str.contains posixpath.sep
         (output_filename (posixpath.join input_dir n) output_format) = false.
Proof.
  intros Hin.
  pose proof (for_each_Forall
                (fun c => match c with
                          | Image_save _ fp' _ _ =>
                              exists n, In n names
                                /\ fp' = posixpath.join output_dir
                                           (output_filename (posixpath.join input_dir n)
                                              output_format)
                                /\ Str.contains posixpath.sep
                                     (output_filename (posixpath.join input_dir n)
                                        output_format) = false
                          | _ => True
                          end)
                input_dir output_dir output_format quality names s) as H.
  cbv beta in H.
  assert (HF : Forall
                 (fun c : call image =>
                    match c with
                    | Image_save _ fp' _ _ =>
                        exists n, In n names
                          /\ fp' = posixpath.join output_dir
                                     (output_filename (posixpath.join input_dir n)
                                        output_format)
                          /\ Str.contains posixpath.sep
                               (output_filename (posixpath.join input_dir n)
                                  output_format) = false
                    | _ => True
                    end)
                 (trace W (for_each names
                             (process_entry input_dir output_dir output_format quality)) s)).
  { apply H; try (intros; exact I).
    intros n s' Hn. apply List.Forall_forall. intros c Hc.
    destruct c; try exact I.
    apply convert_image_saves in Hc as [-> Hfmt].
    exists n. split; [exact Hn|]. split; [reflexivity|].
    assert (Hsup : supported output_format = true).
    { unfold supported. destruct Hfmt as [(-> & _)|(_ & -> & _)]; [reflexivity|].
      apply orb_true_r. }
    destruct (supported_plain _ Hsup) as [Hp Hne].
    now destruct (output_filename_plain (posixpath.join input_dir n) output_format Hp Hne)
      as [Hplain _]. }
  rewrite List.Forall_forall in HF. exact (HF _ Hin).
Qed.

End WalkerShape.

(** ** The walker and [main], start to end *)

Section MainShape.

Context {image : Type} (W : World image).

(** The walker raises only what [os.makedirs] or [os.listdir] raised,
    and stops there. *)
Lemma process_directory_raises (input_dir output_dir output_format : string)
    (quality : Z) (s : state W) (e : exn) :
  value W (process_directory input_dir output_dir output_format quality) s = inl e ->
  exists prefix s',
    (trace W (process_directory input_dir output_dir output_format quality) s
     = (prefix ++ [os_makedirs output_dir])%list
     /\ fst (answer W (os_makedirs output_dir) s') = inl e)
    \/ (trace W (process_directory input_dir output_dir output_format quality) s
        = (prefix ++ [os_listdir input_dir])%list
        /\ fst (answer W (os_listdir input_dir) s') = inl e).
Proof.
  assert (Henum : forall s0,
             value W (enumerate input_dir output_dir output_format quality) s0 = inl e ->
             trace W (enumerate input_dir output_dir output_format quality) s0
             = [os_listdir input_dir]
             /\ fst (answer W (os_listdir input_dir) s0) = inl e).
  { intros s0. unfold value, trace.
    pose proof (enumerate_run W input_dir output_dir output_format quality s0) as H.
    cbv zeta in H.
    destruct (answer W (os_listdir input_dir) s0) as [[e'|names] s1]; rewrite H; cbn [fst snd].
    - intros [= ->]. now split.
    - discriminate. }
  pose proof (process_directory_run W input_dir output_dir output_format quality s) as H.
  cbv zeta in H. unfold value at 1, trace at 1, trace at 1.
  destruct (answer W (os_path_exists output_dir) s) as [[|] s1].
  - rewrite H. cbn [fst snd]. intros Hv. apply Henum in Hv as [Ht Ha].
    exists [os_path_exists output_dir], s1. right. rewrite Ht. now split.
  - destruct (answer W (os_makedirs output_dir) s1) as [[e'|u] s2] eqn:Hmk;
      rewrite H; cbn [fst snd].
    + intros [= ->]. exists [os_path_exists output_dir], s1. left.
      rewrite Hmk. now split.
    + intros Hv. apply Henum in Hv as [Ht Ha].
      exists [os_path_exists output_dir; os_makedirs output_dir;
              print (msg_created output_dir)],
             (snd (answer W (print (msg_created output_dir)) s2)).
      right. rewrite Ht. now split.
Qed.

(** X5. How [main] ends.  It raises only what [os.makedirs] on the
    output directory or [os.listdir] on the input directory raised,
    and that call is its last; no failure of a single file escapes.
    When it returns, its last call printed the completion line, or the
    input directory was refused. *)
Theorem main_outcome (args : Namespace) (s : state W) :
  (forall e,
      value W (main args) s = inl e ->
      exit_status (value W (main args) s) = 1
      /\ exists prefix s',
           (trace W (main args) s = (prefix ++ [os_makedirs (output_dir args)])%list
            /\ fst (answer W (os_makedirs (output_dir args)) s') = inl e)
           \/ (trace W (main args) s = (prefix ++ [os_listdir (input_dir args)])%list
               /\ fst (answer W (os_listdir (input_dir args)) s') = inl e))
  /\ (forall u,
        value W (main args) s = inr u ->
        exit_status (value W (main args) s) = 0
        /\ ((exists prefix,
                trace W (main args) s = (prefix ++ [print msg_completed])%list
                /\ fst (answer W (os_path_isdir (input_dir args)) s) = true)
            \/ (trace W (main args) s
                = [os_path_isdir (input_dir args);
                   print (msg_no_input_dir (input_dir args))]
                /\ fst (answer W (os_path_isdir (input_dir args)) s) = false))).
Proof.
  pose proof (main_run W args s) as H. cbv zeta in H.
  unfold value at 1 2 3 4, trace at 1 2 3 4.
  destruct (answer W (os_path_isdir (input_dir args)) s) as [[|] s1].
  - destruct (value W (process_directory _ _ _ _) s1) as [e'|u'] eqn:Hv; rewrite H;
      cbn [fst snd].
    + split; [|discriminate].
      intros e [= <-]. split; [reflexivity|].
      apply process_directory_raises in Hv as (prefix & s' & [[Ht Ha]|[Ht Ha]]);
        exists (os_path_isdir (input_dir args) :: prefix), s'; [left|right];
        rewrite Ht; now split.
    + split; [discriminate|].
      intros u _. split; [reflexivity|]. left.
      eexists (os_path_isdir (input_dir args) :: _). split; reflexivity.
  - rewrite H. cbn [fst snd]. split; [discriminate|].
    intros u _. split; [reflexivity|]. right. now split.
Qed.

(** X6. An output directory that is already there: the walker goes
    straight to the listing; it never calls [os.makedirs] and never
    prints the creation line. *)
Theorem process_directory_existing_output_dir
    (input_dir output_dir output_format : string) (quality : Z) (s s1 : state W) :
  answer W (os_path_exists output_dir) s = (true, s1) ->
  trace W (process_directory input_dir output_dir output_format quality) s
  = os_path_exists output_dir
      :: trace W (enumerate input_dir output_dir output_format quality) s1
  /\ (forall p,
        ~ In (os_makedirs p)
             (trace W (process_directory input_dir output_dir output_format quality) s))
  /\ ~ In (print (msg_created output_dir))
          (trace W (process_directory input_dir output_dir output_format quality) s).
Proof.
  intros Hex.
  pose proof (process_directory_run W input_dir output_dir output_format quality s) as H.
  cbv zeta in H. rewrite Hex in H.
  assert (Ht : trace W (process_directory input_dir output_dir output_format quality) s
               = os_path_exists output_dir
                   :: trace W (enumerate input_dir output_dir output_format quality) s1)
    by (unfold trace at 1; now rewrite H).
  split; [exact Ht|].
  set (P := fun c : call image =>
              match c with
              | os_makedirs _ => False
              | print line => line <> msg_created output_dir
              | _ => True
              end).
  assert (HP : Forall P (trace W (enumerate input_dir output_dir output_format quality) s1)).
  { pose proof (enumerate_run W input_dir output_dir output_format quality s1) as He.
    cbv zeta in He. unfold trace.
    destruct (answer W (os_listdir input_dir) s1) as [[e|names] s2]; rewrite He; cbn [snd].
    - repeat constructor.
    - constructor; [exact I|].
      apply for_each_Forall; try (intros; exact I).
      + intros n _. unfold P, msg_skipping, msg_created. discriminate.
      + intros n s' _. apply List.Forall_forall. intros c Hc.
        destruct c; try exact I.
        * pose proof (convert_image_calls W (posixpath.join input_dir n) output_dir
                        output_format quality s') as Hall.
          rewrite forallb_forall in Hall. apply Hall in Hc. discriminate Hc.
        * apply convert_image_prints in Hc as [->|[->|[->|[e ->]]]];
            unfold P, msg_unsupported, msg_converted, msg_not_found, msg_error, msg_created;
            discriminate. }
  rewrite List.Forall_forall in HP. rewrite Ht.
  split.
  - intros p [Hc|Hc]; [discriminate Hc|]. exact (HP _ Hc).
  - intros [Hc|Hc]; [discriminate Hc|]. now apply (HP _ Hc).
Qed.

(** X7. An empty input directory: [main] tests the two directories,
    lists the input, prints the completion line and does nothing
    else: no decode, no encode, no other line. *)
Theorem main_empty_input_dir (args : Namespace) (s s1 s2 s3 : state W) :
  answer W (os_path_isdir (input_dir args)) s = (true, s1) ->
  answer W (os_path_exists (output_dir args)) s1 = (true, s2) ->
  answer W (os_listdir (input_dir args)) s2 = (inr [], s3) ->
  run W (main args) s
  = (inr tt, snd (answer W (print msg_completed) s3),
     [os_path_isdir (input_dir args); os_path_exists (output_dir args);
      os_listdir (input_dir args); print msg_completed]).
Proof.
  intros Hdir Hex Hls.
  pose proof (main_run W args s) as H. cbv zeta in H. rewrite Hdir in H.
  pose proof (process_directory_run W (input_dir args) (output_dir args)
                (Str.lower (output_format args)) (quality args) s1) as Hw.
  cbv zeta in Hw. rewrite Hex in Hw.
  pose proof (enumerate_run W (input_dir args) (output_dir args)
                (Str.lower (output_format args)) (quality args) s2) as He.
  cbv zeta in He. rewrite Hls in He.
  unfold value, final, trace in Hw. rewrite He in Hw. cbn [fst snd] in Hw.
  unfold value, final, trace in H. rewrite Hw in H. cbn [fst snd] in H.
  exact H.
Qed.

(** X8. Every image is decoded twice: after a trial decode that
    succeeded, the converter opens the same path again.  If that
    second decode fails (the file went away in between), the converter
    reports it with its own line, not with the skip line. *)
Theorem process_entry_decodes_twice (input_dir output_dir output_format : string)
    (quality : Z) (filename : string) (s s1 s2 : state W) (img : image) :
  let input_path := posixpath.join input_dir filename in
  answer W (os_path_isfile input_path) s = (true, s1) ->
  answer W (Image_open input_path) s1 = (inr img, s2) ->
  match answer W (Image_open input_path) s2 with
  | (inl e, _) =>
      trace W (process_entry input_dir output_dir output_format quality filename) s
      = [os_path_isfile input_path; Image_open input_path; Image_open input_path;
         print (failure_line input_path e)]
  | (inr _, _) =>
      exists rest,
        trace W (process_entry input_dir output_dir output_format quality filename) s
        = os_path_isfile input_path :: Image_open input_path :: Image_open input_path
            :: rest
        /\ ~ In (print (msg_skipping input_path)) rest
  end.
Proof.
  intros input_path Hf Ho.
  pose proof (process_entry_run W input_dir output_dir output_format quality filename s) as H.
  cbv zeta in H. fold input_path in H. rewrite Hf, Ho in H.
  unfold trace at 1 2. rewrite H. cbn [snd].
  destruct (answer W (Image_open input_path) s2) as [[e|img'] s3] eqn:Ho2.
  - now rewrite (convert_image_open_fails W input_path output_dir output_format quality
                   s2 s3 e Ho2).
  - destruct (convert_image_opens_first W input_path output_dir output_format quality s2)
      as [rest Hrest].
    exists rest. split; [now rewrite Hrest|].
    intros Hin.
    assert (Hp : In (print (msg_skipping input_path))
                   (trace W (convert_image input_path output_dir output_format quality) s2))
      by (rewrite Hrest; now right).
    apply convert_image_prints in Hp as [Hc|[Hc|[Hc|[e Hc]]]];
      revert Hc; unfold msg_skipping, msg_unsupported, msg_converted, msg_not_found,
        msg_error; discriminate.
Qed.

End MainShape.

(** ** Output names *)

Section NamingFacts.

Import Str posixpath.

Lemma contains_app (c : ascii) (a b : string) :
  contains c (a ++ b) = contains c a || contains c b.
Proof.
  induction a as [|x a IH]; [reflexivity|].
  rewrite append_cons. simpl. now rewrite IH, orb_assoc.
Qed.

Lemma rfind_from_none (c : ascii) (s : string) (i : Z) :
  contains c s = false -> rfind_from c s i = -1.
Proof.
  revert i. induction s as [|a s IH]; intros i; simpl; [reflexivity|].
  intros H. apply orb_false_iff in H as [Ha Hs].
  now rewrite (IH _ Hs), Ha.
Qed.

Lemma rfind_from_last (c : ascii) (a b : string) (i : Z) :
  0 <= i -> contains c b = false ->
  rfind_from c (a ++ String c b) i = i + Z.of_nat (String.length a).
Proof.
  revert i. induction a as [|x a IH]; intros i Hi Hb.
  - simpl. rewrite (rfind_from_none _ _ _ Hb), Ascii.eqb_refl. simpl. lia.
  - rewrite append_cons. cbn [rfind_from String.length].
    rewrite (IH (i + 1) ltac:(lia) Hb).
    destruct (0 <=? i + 1 + Z.of_nat (String.length a)) eqn:Hle; [lia|].
    apply Z.leb_gt in Hle. lia.
Qed.

Lemma take_app (a b : string) : take (String.length a) (a ++ b) = a.
Proof.
  induction a as [|x a IH]; [now destruct b|].
  rewrite append_cons. simpl. now rewrite IH.
Qed.

Lemma drop_app (a b : string) : drop (String.length a) (a ++ b) = b.
Proof. induction a as [|x a IH]; [reflexivity|]. now rewrite append_cons. Qed.

Lemma startswith_contains (c : ascii) (s : string) :
  contains c s = false -> startswith c s = false.
Proof. destruct s as [|a s]; [reflexivity|]. simpl. now intros [-> _]%orb_false_iff. Qed.

Lemma basename_after_sep (a name : string) :
  contains sep name = false -> basename (a ++ String sep name) = name.
Proof.
  intros Hname. unfold basename, rfind, slice_from.
  rewrite (rfind_from_last sep a name 0 ltac:(lia) Hname).
  replace (Z.to_nat (0 + Z.of_nat (String.length a) + 1)) with (S (String.length a)) by lia.
  clear Hname. induction a as [|x a IH]; [reflexivity|].
  rewrite append_cons. exact IH.
Qed.

(** The base name of an entry of the walker is the listed name. *)
Lemma basename_join (d name : string) :
  contains sep name = false -> basename (join d name) = name.
Proof.
  intros Hname. unfold join. rewrite (startswith_contains _ _ Hname).
  destruct (String.eqb_spec d "") as [->|_]; simpl.
  - unfold basename, rfind, slice_from. now rewrite (rfind_from_none _ _ _ Hname).
  - destruct (endswith sep d) eqn:He.
    + apply endswith_sep in He as [d' ->]. rewrite append_assoc.
      now apply basename_after_sep.
    + now apply basename_after_sep.
Qed.

Lemma splitext_with_extension (stem ext : string) :
  stem <> "" -> startswith extsep stem = false -> contains sep stem = false ->
  contains extsep ext = false -> contains sep ext = false ->
  splitext (stem ++ String extsep ext) = (stem, String extsep ext).
Proof.
  intros Hne Hdot Hstem Hext Hsep. unfold splitext, rfind.
  rewrite (rfind_from_none sep).
  2:{ rewrite contains_app, Hstem. simpl. exact Hsep. }
  rewrite (rfind_from_last extsep stem ext 0 ltac:(lia) Hext).
  destruct stem as [|a stem]; [contradiction|].
  cbn [String.length]. 
  replace (-1 <? 0 + Z.of_nat (S (String.length stem))) with true
    by (symmetry; apply Z.ltb_lt; lia).
  replace (Z.to_nat (0 + Z.of_nat (S (String.length stem)) - (-1 + 1)))
    with (S (String.length stem)) by lia.
  cbn [splitext_scan]. unfold char_at_differs.
  rewrite append_cons. change (-1 + 1) with 0. change (Z.to_nat 0) with 0%nat.
  cbn [String.get]. simpl in Hdot. rewrite Hdot.
  cbn [negb]. unfold slice_to, slice_from.
  replace (Z.to_nat (0 + Z.of_nat (S (String.length stem))))
    with (String.length (String a stem)) by (cbn [String.length]; lia).
  rewrite <- append_cons. now rewrite take_app, drop_app.
Qed.

Lemma splitext_without_extension (name : string) :
  contains extsep name = false -> contains sep name = false ->
  splitext name = (name, "").
Proof.
  intros Hdot Hsep. unfold splitext, rfind.
  now rewrite (rfind_from_none _ _ _ Hdot), (rfind_from_none _ _ _ Hsep).
Qed.

Lemma splitext_dotfile (rest : string) :
  contains extsep rest = false -> contains sep rest = false ->
  splitext (String extsep rest) = (String extsep rest, "").
Proof.
  intros Hdot Hsep. unfold splitext, rfind.
  rewrite (rfind_from_none sep) by (simpl; exact Hsep).
  pose proof (rfind_from_last extsep "" rest 0 ltac:(lia) Hdot) as H.
  change ("" ++ String extsep rest) with (String extsep rest) in H.
  rewrite H. reflexivity.
Qed.

End NamingFacts.

(** X9. The extension is replaced, whatever it was: for an entry
    [stem.ext] of the input directory the output is [stem.format] in
    the output directory.  Two entries that differ only in their
    extension are therefore written to the same output file. *)
Theorem output_name_replaces_extension (input_dir output_dir output_format : string)
    (stem ext : string) :
  stem <> "" -> Str.startswith posixpath.extsep stem = false ->
  Str.contains posixpath.sep stem = false ->
  Str.contains posixpath.extsep ext = false -> Str.contains posixpath.sep ext = false ->
  output_filename (posixpath.join input_dir (stem ++ String posixpath.extsep ext))
    output_format
  = stem ++ "." ++ Str.lower output_format
  /\ forall ext',
       Str.contains posixpath.extsep ext' = false ->
       Str.contains posixpath.sep ext' = false ->
       final_output_path
         (posixpath.join input_dir (stem ++ String posixpath.extsep ext'))
         output_dir output_format
       = final_output_path
           (posixpath.join input_dir (stem ++ String posixpath.extsep ext))
           output_dir output_format.
Proof.
  intros Hne Hdot Hstem Hext Hsep.
  assert (Hname : forall e,
             Str.contains posixpath.extsep e = false ->
             Str.contains posixpath.sep e = false ->
             output_filename
               (posixpath.join input_dir (stem ++ String posixpath.extsep e))
               output_format
             = stem ++ "." ++ Str.lower output_format).
  { intros e He Hs. unfold output_filename.
    rewrite basename_join.
    - now rewrite splitext_with_extension.
    - rewrite contains_app, Hstem. simpl. exact Hs. }
  split; [now apply Hname|].
  intros ext' Hext' Hsep'. unfold final_output_path.
  now rewrite !Hname.
Qed.

(** X10. A name without an extension keeps all of it: an entry whose
    name has no period, or only a leading one, gets the format
    appended to its whole name. *)
Theorem output_name_without_extension (input_dir output_format name : string) :
  Str.contains posixpath.extsep name = false ->
  Str.contains posixpath.sep name = false ->
  output_filename (posixpath.join input_dir name) output_format
  = name ++ "." ++ Str.lower output_format
  /\ output_filename (posixpath.join input_dir (String posixpath.extsep name))
       output_format
     = String posixpath.extsep name ++ "." ++ Str.lower output_format.
Proof.
  intros Hdot Hsep. unfold output_filename. split.
  - rewrite basename_join by exact Hsep.
    now rewrite splitext_without_extension.
  - rewrite basename_join by (simpl; exact Hsep).
    now rewrite splitext_dotfile.
Qed.

(** ** The command line and the format argument *)

(** X11. The command line without [--quality] gives quality 80; the
    option is also read before the positionals, and in the form
    [--quality=N]. *)
Theorem parse_args_forms (i o f : string) (q : Z) :
  argparse.option_like i = false ->
  argparse.option_like o = false ->
  argparse.option_like f = false ->
  argparse.parse_args [i; o; f]
  = Some {| input_dir := i; output_dir := o; output_format := f; quality := 80 |}
  /\ argparse.parse_args ["--quality"; argparse.str_int q; i; o; f]
     = Some {| input_dir := i; output_dir := o; output_format := f; quality := q |}
  /\ argparse.parse_args [i; "--quality=" ++ argparse.str_int q; o; f]
     = Some {| input_dir := i; output_dir := o; output_format := f; quality := q |}.
Proof.
  intros Hi Ho Hf.
  destruct (positional_token i Hi) as [Hi1 Hi2].
  destruct (positional_token o Ho) as [Ho1 Ho2].
  destruct (positional_token f Hf) as [Hf1 Hf2].
  unfold argparse.parse_args. repeat split.
  - cbn [argparse.parse_known].
    now rewrite Hi1, Hi2, Hi, Ho1, Ho2, Ho, Hf1, Hf2, Hf.
  - cbn [argparse.parse_known String.eqb Ascii.eqb Bool.eqb].
    rewrite str_int_not_option, int_str_int. cbn [argparse.parse_known].
    now rewrite Hi1, Hi2, Hi, Ho1, Ho2, Ho, Hf1, Hf2, Hf.
  - cbn [argparse.parse_known].
    rewrite Hi1, Hi2, Hi.
    replace (String.eqb ("--quality=" ++ argparse.str_int q) "--quality") with false
      by reflexivity.
    replace (Str.has_prefix "--quality=" ("--quality=" ++ argparse.str_int q)) with true
      by reflexivity.
    change (Str.drop 10 ("--quality=" ++ argparse.str_int q)) with (argparse.str_int q).
    rewrite int_str_int. cbn [argparse.parse_known].
    now rewrite Ho1, Ho2, Ho, Hf1, Hf2, Hf.
Qed.

Lemma lower_char_idempotent (c : ascii) :
  Str.lower_char (Str.lower_char c) = Str.lower_char c.
Proof. destruct c as [[] [] [] [] [] [] [] []]; reflexivity. Qed.

Lemma lower_idempotent (s : string) : Str.lower (Str.lower s) = Str.lower s.
Proof.
  induction s as [|c s IH]; [reflexivity|].
  simpl. now rewrite lower_char_idempotent, IH.
Qed.

(** X12. The format argument is case-insensitive from end to end:
    [main] runs the same program for two spellings with the same
    lower-case form, in particular for a format and its lower-case
    form; the converter called on its own does so for every supported
    format. *)
Theorem format_case_insensitive {image : Type} (f f' : string) :
  Str.lower f' = Str.lower f ->
  (forall args : Namespace,
      main (image := image) (with_format args f') = main (with_format args f))
  /\ (forall args : Namespace,
        main (image := image) (with_format args (Str.lower (output_format args)))
        = main args)
  /\ (supported f = true ->
      forall input_path output_path quality,
        convert_image (image := image) input_path output_path f' quality
        = convert_image input_path output_path f quality).
Proof.
  intros Hlow. split; [|split].
  - intros args. unfold main, with_format. cbn [input_dir output_dir output_format quality].
    now rewrite Hlow.
  - intros args. unfold main, with_format. cbn [input_dir output_dir output_format quality].
    now rewrite lower_idempotent.
  - intros Hsup input_path output_path quality.
    unfold supported, is_webp, is_png_jpeg in Hsup.
    unfold convert_image, convert_image_try, final_output_path, output_filename.
    rewrite Hlow.
    destruct (String.eqb (Str.lower f) "webp"); [reflexivity|].
    cbn [orb] in Hsup. now rewrite Hsup.
Qed.

(** ** A run of [main] as a whole *)

Section MainForall.

Context {image : Type} (W : World image).

(** Lifting a property of calls from one conversion to a run of
    [main]. *)
Lemma main_Forall (P : call image -> Prop) (args : Namespace) (s : state W) :
  (forall c, converter_call c = false -> P c) ->
  (forall p, P (Image_open p)) ->
  (forall line, P (print line)) ->
  (forall input_path s',
      Forall P (trace W (convert_image input_path (output_dir args)
                           (Str.lower (output_format args)) (quality args)) s')) ->
  Forall P (trace W (main args) s).
Proof.
  intros Hos Hopen Hprint Hconv.
  assert (Henum : forall s0,
             Forall P (trace W (enumerate (input_dir args) (output_dir args)
                                  (Str.lower (output_format args)) (quality args)) s0)).
  { intros s0.
    pose proof (enumerate_run W (input_dir args) (output_dir args)
                  (Str.lower (output_format args)) (quality args) s0) as He.
    cbv zeta in He. unfold trace.
    destruct (answer W (os_listdir (input_dir args)) s0) as [[e|names] s1];
      rewrite He; cbn [snd].
    - constructor; [now apply Hos|constructor].
    - constructor; [now apply Hos|].
      apply for_each_Forall; intros; auto. }
  assert (Hwalk : forall s0,
             Forall P (trace W (process_directory (input_dir args) (output_dir args)
                                  (Str.lower (output_format args)) (quality args)) s0)).
  { intros s0.
    pose proof (process_directory_run W (input_dir args) (output_dir args)
                  (Str.lower (output_format args)) (quality args) s0) as Hw.
    cbv zeta in Hw. unfold trace at 1.
    destruct (answer W (os_path_exists (output_dir args)) s0) as [[|] s1].
    - rewrite Hw. cbn [snd]. constructor; [now apply Hos|apply Henum].
    - destruct (answer W (os_makedirs (output_dir args)) s1) as [[e|u] s2];
        rewrite Hw; cbn [snd].
      + repeat constructor; now apply Hos.
      + constructor; [now apply Hos|]. constructor; [now apply Hos|].
        constructor; [apply Hprint|apply Henum]. }
  pose proof (main_run W args s) as H. cbv zeta in H. unfold trace at 1.
  destruct (answer W (os_path_isdir (input_dir args)) s) as [[|] s1].
  - destruct (value W _ s1) as [e|u]; rewrite H; cbn [snd].
    + constructor; [now apply Hos|apply Hwalk].
    + constructor; [now apply Hos|]. apply Forall_app. split; [apply Hwalk|].
      repeat constructor. apply Hprint.
  - rewrite H. repeat constructor; [now apply Hos|apply Hprint].
Qed.

Lemma save_count_zero (t : list (call image)) :
  Forall (fun c => match c with Image_save _ _ _ _ => False | _ => True end) t ->
  save_count t = 0%nat.
Proof.
  induction 1 as [|c t Hc _ IH]; [reflexivity|].
  destruct c; simpl; try exact IH. contradiction.
Qed.

(** X13. The format is never checked up front: with an unsupported
    format [main] still tests the directories, creates the output
    directory when it is missing, lists the input and goes round the
    loop; a file that decodes gets the unsupported-format line, with
    the format in lower case, and the completion line follows.  No run
    ever issues an encode or a convert call. *)
Theorem main_unsupported_format (args : Namespace) (s : state W) :
  supported (output_format args) = false ->
  save_count (trace W (main args) s) = 0%nat
  /\ (forall img m, ~ In (Image_convert img m) (trace W (main args) s))
  /\ hd_error (trace W (main args) s) = Some (os_path_isdir (input_dir args))
  /\ (forall s1 s2 s3 names,
        answer W (os_path_isdir (input_dir args)) s = (true, s1) ->
        answer W (os_path_exists (output_dir args)) s1 = (true, s2) ->
        answer W (os_listdir (input_dir args)) s2 = (inr names, s3) ->
        trace W (main args) s
        = os_path_isdir (input_dir args) :: os_path_exists (output_dir args)
            :: os_listdir (input_dir args)
            :: (trace W (for_each names
                           (process_entry (input_dir args) (output_dir args)
                              (Str.lower (output_format args)) (quality args))) s3
                ++ [print msg_completed])%list
        /\ value W (main args) s = inr tt)
  /\ (forall s1 s2,
        answer W (os_path_isdir (input_dir args)) s = (true, s1) ->
        answer W (os_path_exists (output_dir args)) s1 = (false, s2) ->
        exists rest,
          trace W (main args) s
          = os_path_isdir (input_dir args) :: os_path_exists (output_dir args)
              :: os_makedirs (output_dir args) :: rest)
  /\ (forall n s1 s2 s3 s4 s5 s6 img0 img,
        answer W (os_path_isdir (input_dir args)) s = (true, s1) ->
        answer W (os_path_exists (output_dir args)) s1 = (true, s2) ->
        answer W (os_listdir (input_dir args)) s2 = (inr [n], s3) ->
        answer W (os_path_isfile (posixpath.join (input_dir args) n)) s3 = (true, s4) ->
        answer W (Image_open (posixpath.join (input_dir args) n)) s4 = (inr img0, s5) ->
        answer W (Image_open (posixpath.join (input_dir args) n)) s5 = (inr img, s6) ->
        trace W (main args) s
        = [os_path_isdir (input_dir args); os_path_exists (output_dir args);
           os_listdir (input_dir args);
           os_path_isfile (posixpath.join (input_dir args) n);
           Image_open (posixpath.join (input_dir args) n);
           Image_open (posixpath.join (input_dir args) n);
           print (msg_unsupported (Str.lower (output_format args)));
           print msg_completed]).
Proof.
  intros Hsup.
  assert (Hlow : supported (Str.lower (output_format args)) = false).
  { unfold supported, is_webp, is_png_jpeg in *. now rewrite lower_idempotent. }
  split; [|split; [|split; [|split; [|split]]]].
  - apply save_count_zero. apply main_Forall; try (intros; exact I).
    + intros c Hc. destruct c; try exact I. discriminate Hc.
    + intros input_path s'. apply List.Forall_forall. intros c Hc.
      destruct c; try exact I.
      apply convert_image_saves in Hc as [_ [[Hw _]|[_ [Hp _]]]];
        unfold supported in Hlow; apply orb_false_iff in Hlow as [Hw' Hp']; congruence.
  - intros img m Hin.
    assert (HF : Forall (fun c => match c with Image_convert _ _ => False | _ => True end)
                   (trace W (main args) s)).
    { apply main_Forall; try (intros; exact I).
      + intros c Hc. destruct c; try exact I. discriminate Hc.
      + intros input_path s'. apply List.Forall_forall. intros c Hc.
        destruct c; try exact I.
        unfold supported in Hlow. apply orb_false_iff in Hlow as [Hw' Hp'].
        revert Hc. unfold is_webp in Hw'.
        unfold trace, convert_image, convert_image_try. unfold_py.
        rewrite Hw'.
        destruct (str_in (Str.lower (Str.lower (output_format args)))
                    ["png"; "jpeg"; "jpg"]);
          answers; intros Hc;
          repeat match goal with
                 | H' : _ \/ _ |- _ => destruct H' as [H'|H']
                 | H' : False |- _ => destruct H'
                 end; discriminate Hc. }
    rewrite List.Forall_forall in HF. exact (HF _ Hin).
  - pose proof (main_run W args s) as H. cbv zeta in H. unfold trace.
    destruct (answer W (os_path_isdir (input_dir args)) s) as [[|] s1].
    + destruct (value W _ s1) as [e|u]; now rewrite H.
    + now rewrite H.
  - intros s1 s2 s3 names. apply main_walk.
  - intros s1 s2 Hdir Hex.
    pose proof (main_run W args s) as H. cbv zeta in H. rewrite Hdir in H.
    pose proof (process_directory_steps W (input_dir args) (output_dir args)
                  (Str.lower (output_format args)) (quality args) s1) as Hw.
    cbv zeta in Hw. rewrite Hex in Hw.
    assert (Ht : exists rest,
               trace W (process_directory (input_dir args) (output_dir args)
                          (Str.lower (output_format args)) (quality args)) s1
               = os_path_exists (output_dir args) :: os_makedirs (output_dir args) :: rest).
    { unfold trace.
      destruct (answer W (os_makedirs (output_dir args)) s2) as [[e|u] s3].
      - rewrite Hw. now exists [].
      - destruct (answer W (os_listdir (input_dir args)) _) as [[e|names] s4];
          rewrite Hw; eexists; reflexivity. }
    destruct Ht as [rest Ht]. unfold trace at 1.
    destruct (value W _ s1) as [e|u]; rewrite H; cbn [snd]; rewrite Ht;
      eexists; reflexivity.
  - intros n s1 s2 s3 s4 s5 s6 img0 img Hdir Hex Hls Hf Ho0 Ho.
    rewrite (proj1 (main_walk W args s s1 s2 s3 [n] Hdir Hex Hls)).
    rewrite for_each_single.
    rewrite (process_entry_converts W _ _ _ _ n s3 s4 s5 img0 Hf Ho0).
    now rewrite (convert_image_unsupported_trace W _ (output_dir args)
                   (Str.lower (output_format args)) (quality args) s5 s6 img Hlow Ho).
Qed.

End MainForall.

(** ** These properties on the sample tree *)

Section FurtherWitnesses.

Import Disk.

Lemma convert_image_call_shape_witness :
  supported "gif" = false
  /\ save_count (trace world (convert_image "in/photo.png" "out" "gif" 80) Sample.disk)
     = 0%nat.
Proof.
  split; [reflexivity|].
  exact (proj1 (proj2 (proj2 (convert_image_call_shape world "in/photo.png" "out" "gif" 80
                                Sample.disk))) eq_refl).
Defined.

Lemma walker_writes_into_output_dir_witness :
  In (Image_save Sample.rgb_photo "out/photo.webp" (Some "webp") (Some 50))
     (trace world (for_each ["notes.txt"; "photo.png"] (process_entry "in" "out" "webp" 50))
        Sample.disk)
  /\ exists n,
       In n ["notes.txt"; "photo.png"]
       /\ "out/photo.webp" = posixpath.join "out" (output_filename (posixpath.join "in" n) "webp")
       /\ Str.contains posixpath.sep (output_filename (posixpath.join "in" n) "webp") = false.
Proof.
  assert (H : In (Image_save Sample.rgb_photo "out/photo.webp" (Some "webp") (Some 50))
                (trace world (for_each ["notes.txt"; "photo.png"]
                                (process_entry "in" "out" "webp" 50)) Sample.disk))
    by (vm_compute; tauto).
  split; [exact H|].
  exact (walker_writes_into_output_dir world "in" "out" "webp" 50 _ _ _ _ _ _ H).
Defined.

Lemma main_outcome_witness :
  value world (main {| input_dir := "in"; output_dir := "in/notes.txt/out";
                       output_format := "webp"; quality := 80 |}) Sample.disk
  = inl (not_a_directory "in/notes.txt/out")
  /\ exit_status
       (value world (main {| input_dir := "in"; output_dir := "in/notes.txt/out";
                             output_format := "webp"; quality := 80 |}) Sample.disk)
     = 1.
Proof.
  assert (H : value world (main {| input_dir := "in"; output_dir := "in/notes.txt/out";
                                   output_format := "webp"; quality := 80 |}) Sample.disk
              = inl (not_a_directory "in/notes.txt/out")) by reflexivity.
  split; [exact H|].
  exact (proj1 (proj1 (main_outcome world _ Sample.disk) _ H)).
Defined.

Lemma process_directory_existing_output_dir_witness :
  answer world (os_path_exists "out") Sample.disk = (true, Sample.disk)
  /\ ~ In (print (msg_created "out"))
          (trace world (process_directory "in" "out" "webp" 50) Sample.disk).
Proof.
  split; [reflexivity|].
  exact (proj2 (proj2 (process_directory_existing_output_dir world "in" "out" "webp" 50
                         Sample.disk Sample.disk eq_refl))).
Defined.

Lemma main_empty_input_dir_witness :
  answer world (os_listdir "out") Sample.disk = (inr [], Sample.disk)
  /\ run world (main {| input_dir := "out"; output_dir := "in";
                        output_format := "webp"; quality := 80 |}) Sample.disk
     = (inr tt, Sample.disk,
        [os_path_isdir "out"; os_path_exists "in"; os_listdir "out";
         print "Image conversion process completed."]).
Proof.
  split; [reflexivity|].
  exact (main_empty_input_dir world
           {| input_dir := "out"; output_dir := "in";
              output_format := "webp"; quality := 80 |}
           Sample.disk Sample.disk Sample.disk Sample.disk eq_refl eq_refl eq_refl).
Defined.

Lemma process_entry_decodes_twice_witness :
  answer world (os_path_isfile "in/photo.png") Sample.disk = (true, Sample.disk)
  /\ answer world (Image_open "in/photo.png") Sample.disk
     = (inr Sample.photo, Sample.disk)
  /\ exists rest,
       trace world (process_entry "in" "out" "webp" 50 "photo.png") Sample.disk
       = os_path_isfile "in/photo.png" :: Image_open "in/photo.png"
           :: Image_open "in/photo.png" :: rest
       /\ ~ In (print (msg_skipping "in/photo.png")) rest.
Proof.
  split; [reflexivity|]. split; [reflexivity|].
  exact (process_entry_decodes_twice world "in" "out" "webp" 50 "photo.png"
           Sample.disk Sample.disk Sample.disk Sample.photo eq_refl eq_refl).
Defined.

Lemma output_name_replaces_extension_witness :
  output_filename "in/photo.png" "WebP" = "photo.webp"
  /\ final_output_path "in/photo.bmp" "out" "WebP"
     = final_output_path "in/photo.png" "out" "WebP".
Proof.
  pose proof (output_name_replaces_extension "in" "out" "WebP" "photo" "png"
                ltac:(discriminate) eq_refl eq_refl eq_refl eq_refl) as [H1 H2].
  split; [exact H1|exact (H2 "bmp" eq_refl eq_refl)].
Defined.

Lemma output_name_without_extension_witness :
  output_filename "in/README" "png" = "README.png"
  /\ output_filename "in/.README" "png" = ".README.png".
Proof.
  exact (output_name_without_extension "in" "png" "README" eq_refl eq_refl).
Defined.

Lemma parse_args_forms_witness :
  argparse.parse_args ["in"; "out"; "webp"]
  = Some {| input_dir := "in"; output_dir := "out"; output_format := "webp";
            quality := 80 |}
  /\ argparse.parse_args ["--quality"; "7"; "in"; "out"; "webp"]
     = Some {| input_dir := "in"; output_dir := "out"; output_format := "webp";
               quality := 7 |}
  /\ argparse.parse_args ["in"; "--quality=7"; "out"; "webp"]
     = Some {| input_dir := "in"; output_dir := "out"; output_format := "webp";
               quality := 7 |}.
Proof.
  exact (parse_args_forms "in" "out" "webp" 7 eq_refl eq_refl eq_refl).
Defined.

Lemma format_case_insensitive_witness :
  Str.lower "WEBP" = Str.lower "webp"
  /\ main (image := picture)
       {| input_dir := "in"; output_dir := "out"; output_format := "WEBP"; quality := 50 |}
     = main {| input_dir := "in"; output_dir := "out"; output_format := "webp";
               quality := 50 |}
  /\ convert_image (image := picture) "in/photo.png" "out" "WEBP" 50
     = convert_image "in/photo.png" "out" "webp" 50.
Proof.
  split; [reflexivity|].
  pose proof (format_case_insensitive (image := picture) "webp" "WEBP" eq_refl)
    as (H1 & _ & H3).
  split.
  - exact (H1 {| input_dir := "in"; output_dir := "out"; output_format := "x";
                 quality := 50 |}).
  - exact (H3 eq_refl "in/photo.png" "out" 50).
Defined.

Lemma main_unsupported_format_witness :
  supported "GIF" = false
  /\ save_count
       (trace world (main {| input_dir := "in"; output_dir := "out";
                             output_format := "GIF"; quality := 80 |}) Sample.disk)
     = 0%nat
  /\ trace world (main {| input_dir := "in/sub"; output_dir := "out";
                          output_format := "GIF"; quality := 80 |}) Sample.disk
     = [os_path_isdir "in/sub"; os_path_exists "out"; os_listdir "in/sub";
        os_path_isfile "in/sub/x.png"; Image_open "in/sub/x.png";
        Image_open "in/sub/x.png"; print "Unsupported output format: gif";
        print "Image conversion process completed."].
Proof.
  split; [reflexivity|]. split.
  - exact (proj1 (main_unsupported_format world
                    {| input_dir := "in"; output_dir := "out";
                       output_format := "GIF"; quality := 80 |} Sample.disk eq_refl)).
  - pose proof (main_unsupported_format world
                  {| input_dir := "in/sub"; output_dir := "out";
                     output_format := "GIF"; quality := 80 |} Sample.disk eq_refl)
      as (_ & _ & _ & _ & _ & H6).
    exact (H6 "x.png" Sample.disk Sample.disk Sample.disk Sample.disk Sample.disk
              Sample.disk Sample.photo Sample.photo
              eq_refl eq_refl eq_refl eq_refl eq_refl eq_refl).
Defined.

End FurtherWitnesses.
